(** * old-sell-app: the marketplace request handlers of [app.py]

    A shallow embedding of the Flask module [src/app.py]: the three ORM
    tables are lists of records in row order, every route is a function
    from the stored state, the session and the request to a response and
    a new state, and the Python and library primitives the handlers call
    ([str.split], [int], [float], truthiness, [Accept.best_match]) are
    written out as executable functions.

    Text is modelled as [string] over ASCII; the non-ASCII digits and
    spaces that Python's number parsers also accept are outside the
    model. *)

From Stdlib Require Import List String Ascii Bool ZArith QArith Lia.
From Stdlib Require Import Sorting.Sorted Sorting.Permutation.
From Stdlib Require Import Floats.SpecFloat.
Import ListNotations.

Set Warnings "-register-all".

Local Open Scope string_scope.
Local Open Scope Z_scope.

(** ** Python text primitives *)

Module Py.

Definition chars (s : string) : list ascii := list_ascii_of_string s.
Definition text (cs : list ascii) : string := string_of_list_ascii cs.

(** [s.split(sep)] for a one-character separator: never the empty list. *)
Fixpoint split (sep : ascii) (s : string) : list string :=
  match s with
  | EmptyString => [EmptyString]
  | String c s' =>
      if Ascii.eqb c sep then EmptyString :: split sep s'
      else match split sep s' with
           | [] => [String c EmptyString]
           | h :: t => String c h :: t
           end
  end.

(** [l[-1]]: [None] stands for IndexError. *)
Fixpoint index_last {A : Type} (l : list A) : option A :=
  match l with
  | [] => None
  | [x] => Some x
  | _ :: t => index_last t
  end.

(** [sep in s] *)
Fixpoint contains (sep : ascii) (s : string) : bool :=
  match s with
  | EmptyString => false
  | String c s' => Ascii.eqb c sep || contains sep s'
  end.

(** The blanks [int] and [float] strip from both ends of an ASCII text:
    TAB LF VT FF CR and the space (the separators FS GS RS US are not
    among them). *)
Definition is_space (c : ascii) : bool :=
  let n := N.to_nat (N_of_ascii c) in
  ((9 <=? n) && (n <=? 13) || (n =? 32))%nat.

Fixpoint lstrip (cs : list ascii) : list ascii :=
  match cs with
  | c :: r => if is_space c then lstrip r else cs
  | [] => []
  end.

Definition strip (cs : list ascii) : list ascii :=
  rev (lstrip (rev (lstrip cs))).

Definition is_digit (c : ascii) : bool :=
  let n := N_of_ascii c in ((48 <=? n) && (n <=? 57))%N.

Definition digit_value (c : ascii) : Z := Z.of_N (N_of_ascii c) - 48.

(** Digit-group underscores, as the number parsers accept them: every
    underscore stands between two digits. [None] is a rejected text;
    otherwise the text without its underscores. *)
Fixpoint drop_underscores (prev : option ascii) (cs : list ascii)
  : option (list ascii) :=
  match cs with
  | [] => Some []
  | c :: r =>
      if Ascii.eqb c "_"
      then match prev, r with
           | Some p, n :: _ =>
               if is_digit p && is_digit n
               then drop_underscores (Some c) r else None
           | _, _ => None
           end
      else option_map (cons c) (drop_underscores (Some c) r)
  end.

(** Value of a run of decimal digits read left to right from [acc];
    [None] when a character is not a digit. *)
Fixpoint digits_from (acc : Z) (cs : list ascii) : option Z :=
  match cs with
  | [] => Some acc
  | c :: r => if is_digit c then digits_from (10 * acc + digit_value c) r
              else None
  end.

Definition digits (cs : list ascii) : option Z :=
  match cs with
  | [] => None
  | _ => digits_from 0 cs
  end.

Definition split_sign (cs : list ascii) : bool * list ascii :=
  match cs with
  | c :: r => if Ascii.eqb c "-" then (true, r)
              else if Ascii.eqb c "+" then (false, r)
              else (false, cs)
  | [] => (false, [])
  end.

(** The most digits [int] converts (sys.int_max_str_digits). *)
Definition int_max_str_digits : nat := 4300.

(** [int(s)] in base ten; [None] stands for ValueError, which a text of
    more than [int_max_str_digits] digits raises too (leading zeros
    count, underscores do not). *)
Definition int (s : string) : option Z :=
  let (neg, body) := split_sign (strip (chars s)) in
  match drop_underscores None body with
  | None => None
  | Some ds =>
      if (int_max_str_digits <? List.length ds)%nat then None
      else match digits ds with
           | None => None
           | Some n => Some (if neg then - n else n)
           end
  end.

(** [c.lower()] on ASCII letters. *)
Definition lower_char (c : ascii) : ascii :=
  let n := N_of_ascii c in
  if ((65 <=? n) && (n <=? 90))%N then ascii_of_N (n + 32) else c.

Fixpoint lower (s : string) : string :=
  match s with
  | EmptyString => EmptyString
  | String c s' => String (lower_char c) (lower s')
  end.

(** [d.get(k)] on a mapping kept as its items: the first item of that
    key, [None] when there is none. *)
Fixpoint assoc {A : Type} (k : string) (kvs : list (string * A)) : option A :=
  match kvs with
  | [] => None
  | (k', v) :: r => if String.eqb k' k then Some v else assoc k r
  end.

(** [sep.join(l)] for a one-character separator. *)
Fixpoint join (sep : ascii) (l : list string) : string :=
  match l with
  | [] => EmptyString
  | [x] => x
  | x :: t => x ++ String sep (join sep t)
  end.

(** [s.rsplit(sep, 1)]: at most one cut, at the last separator. *)
Definition rsplit1 (sep : ascii) (s : string) : list string :=
  match split sep s with
  | [] | [_] => [s]
  | segs => match index_last segs with
            | Some tl => [join sep (removelast segs); tl]
            | None => [s]
            end
  end.

(** *** [float(s)]

    Floats are IEEE binary64 values, as [spec_float] with 53 bits of
    precision and exponent bound 1024. *)

Definition prec : Z := 53.
Definition emax : Z := 1024.

(** The binary64 nearest to [(-1)^neg * m * 10^e10], ties to even. *)
Definition of_decimal (neg : bool) (m : Z) (e10 : Z) : spec_float :=
  match m with
  | Zpos p =>
      if 0 <=? e10
      then binary_round prec emax neg (Pos.mul p (Z.to_pos (10 ^ e10))) 0
      else let '(q, e, l) :=
             SFdiv_core_binary prec emax (Zpos p) 0 (10 ^ (- e10)) 0 in
           binary_round_aux prec emax neg q e l
  | _ => S754_zero neg
  end.

(** The longest prefix of digits, and what follows it. *)
Fixpoint span_digits (cs : list ascii) : list ascii * list ascii :=
  match cs with
  | c :: r => if is_digit c
              then let (ds, rest) := span_digits r in (c :: ds, rest)
              else ([], cs)
  | [] => ([], [])
  end.

(** The exponent part: nothing, or [e] or [E], an optional sign and at
    least one digit. *)
Definition exponent (cs : list ascii) : option Z :=
  match cs with
  | [] => Some 0
  | c :: r =>
      if Ascii.eqb (lower_char c) "e"
      then let (neg, ds) := split_sign r in
           match digits ds with
           | Some n => Some (if neg then - n else n)
           | None => None
           end
      else None
  end.

(** [float(s)]; [None] stands for ValueError. *)
Definition float (s : string) : option spec_float :=
  match drop_underscores None (strip (chars s)) with
  | None => None
  | Some cs =>
      let (neg, body) := split_sign cs in
      let word := lower (text body) in
      if String.eqb word "inf" || String.eqb word "infinity"
      then Some (S754_infinity neg)
      else if String.eqb word "nan" then Some S754_nan
      else
        let (ip, r1) := span_digits body in
        let (fp, r2) :=
          match r1 with
          | c :: r => if Ascii.eqb c "." then span_digits r else ([], r1)
          | [] => ([], [])
          end in
        match digits (ip ++ fp)%list, exponent r2 with
        | Some m, Some e => Some (of_decimal neg m (e - Z.of_nat (List.length fp)))
        | _, _ => None
        end
  end.


End Py.

(** ** Values of a decoded JSON document and their truth value *)

Module Json.

Inductive value : Type :=
| VNone
| VBool (b : bool)
| VInt (n : Z)
| VFloat (x : spec_float)
| VStr (s : string)
| VList (l : list value)
| VDict (kvs : list (string * value)).

(** [bool(v)], the test an [if v:] makes. *)
Definition truthy (v : value) : bool :=
  match v with
  | VNone => false
  | VBool b => b
  | VInt n => negb (n =? 0)
  | VFloat (S754_zero _) => false
  | VFloat _ => true
  | VStr s => negb (String.eqb s "")
  | VList l => match l with [] => false | _ => true end
  | VDict kvs => match kvs with [] => false | _ => true end
  end.

(** [d.get(k)]: [None] when the key is absent. *)
Definition get (kvs : list (string * value)) (k : string) : value :=
  match Py.assoc k kvs with
  | Some v => v
  | None => VNone
  end.

End Json.

(** ** Stored rows *)

Module Sql.

(** What a column of the store holds. *)
Inductive value : Type :=
| Null
| Int (n : Z)
| Real (x : spec_float)
| Text (s : string).

Inductive column : Type := IntegerColumn | TextColumn.

(** The integers the driver binds: those of 64 bits. *)
Definition int64 (n : Z) : bool := (- 2 ^ 63 <=? n) && (n <? 2 ^ 63).

(** Parameter binding of the database driver: integers of 64 bits,
    floats (a NaN is bound as NULL), text and None; a list or a dict,
    or an integer out of range, makes the statement fail. *)
Definition bind (v : Json.value) : option value :=
  match v with
  | Json.VNone => Some Null
  | Json.VBool b => Some (Int (if b then 1 else 0))
  | Json.VInt n =>
      if int64 n then Some (Int n) else None
  | Json.VFloat S754_nan => Some Null
  | Json.VFloat x => Some (Real x)
  | Json.VStr s => Some (Text s)
  | Json.VList _ | Json.VDict _ => None
  end.

(** The exception a value the driver cannot bind raises. *)
Definition bind_failure (v : Json.value) : string :=
  match v with
  | Json.VInt _ => "OverflowError"
  | _ => "ProgrammingError"
  end.

(** A float written to a NOT NULL column and read back: a NaN is bound
    as NULL and refused, a zero comes back as +0.0 whatever its sign. *)
Definition stored_real (x : spec_float) : option spec_float :=
  match x with
  | S754_nan => None
  | S754_zero _ => Some (S754_zero false)
  | _ => Some x
  end.

(** A stored value read back as a Python value. *)
Definition load (v : value) : Json.value :=
  match v with
  | Null => Json.VNone
  | Int n => Json.VInt n
  | Real x => Json.VFloat x
  | Text s => Json.VStr s
  end.

(** [column = n] in a WHERE clause, for an integer [n]: numeric
    comparison is exact, text and NULL never equal a number. *)
Definition eq_int (v : value) (n : Z) : bool :=
  match v with
  | Int m => m =? n
  | Real (S754_zero _) => n =? 0
  | Real (S754_finite s m e) =>
      let sm := if s then Zneg m else Zpos m in
      if 0 <=? e then sm * 2 ^ e =? n else sm =? n * 2 ^ (- e)
  | _ => false
  end.

End Sql.

Record User : Type := {
  user_id : Z;
  username : string;
  password_hash : string;
  email : string;
  phone : string;
  is_admin : bool;
  upi_id : option string
}.

Record Item : Type := {
  item_id : Z;
  title : string;
  description : string;
  price : spec_float;
  currency : string;
  image_filename : option string;
  seller_id : Z;
  location : string;
  latitude : option spec_float;
  longitude : option spec_float;
  is_sold : bool
}.

Record ChatMessage : Type := {
  message_id : Z;
  from_user_id : Z;
  to_user_id : Sql.value;
  message : Sql.value;
  timestamp : Z
}.

(** The persisted state: the three tables, each as its rows in the order
    they were inserted (a new row comes last), and the files of the
    upload folder (newest first, so the head shadows an older file of
    the same name). *)
Record Store : Type := {
  users : list User;
  items : list Item;
  messages : list ChatMessage;
  uploads : list (string * string)
}.

(** The primary key the store gives a new row: one more than the largest
    key of the table. *)
Definition next_id (ids : list Z) : Z := 1 + fold_right Z.max 0 ids.

(** ** What the libraries and the process environment provide

    The password hasher, the file-name sanitiser, the date formatter, the
    store's column affinity and the gateway SDK are not code of this
    module: the handlers are written over any implementation of them. *)
Class Platform : Type := {
  (** [werkzeug.security.generate_password_hash], salted from [entropy] *)
  generate_password_hash : string -> string -> string;
  (** [check_password_hash pwhash password] *)
  check_password_hash : string -> string -> bool;
  (** [werkzeug.utils.secure_filename] *)
  secure_filename : string -> string;
  (** [datetime.strftime('%Y-%m-%d %H:%M:%S')] of a timestamp *)
  strftime : Z -> string;
  (** the re-encoding the store applies to a value written to a column *)
  affinity : Sql.column -> Sql.value -> Sql.value;
  (** which never turns a value into NULL *)
  affinity_not_null : forall c v, v <> Sql.Null -> affinity c v <> Sql.Null;
  (** [PaytmChecksum.generate_checksum params key]; [None] when it raises *)
  sdk_generate_checksum :
    list (string * option string) -> option string -> option string;
  (** [PaytmChecksum.verify_checksum params key checksum] *)
  sdk_verify_checksum :
    list (string * option string) -> option string -> string -> option bool
}.

(** What a request finds around it: the server clock (microseconds), the
    entropy the hasher salts with, and the process environment. *)
Record Ambient : Type := {
  utcnow : Z;
  entropy : string;
  environ : list (string * string)
}.

(** ** Requests and responses *)

Inductive method : Type := GET | POST.

(** [request.form]: the fields in the order sent; a lookup finds the
    first field of that name. *)
Definition Form : Type := list (string * string).

(** An uploaded file: the name the client gave and the bytes. *)
Record FileStorage : Type := {
  filename : string;
  content : string
}.

(** What a template is rendered from. *)
Inductive Page : Type :=
| NoData
| ItemList (l : list Item)
| ItemView (it : Item) (seller : option User)
| ChatView (it : Item) (seller : Z) (msgs : list ChatMessage).

Inductive Response : Type :=
| Redirect (endpoint : string) (flashed : list string)
| Render (template : string) (flashed : list string) (page : Page)
| Jsonify (code : Z) (body : Json.value)
| Abort (code : Z)
| Fault (exception : string).

(** One constructor per route of the module, and a second one for
    /send_message: a body that declares JSON and does not parse. *)
Inductive Request : Type :=
| ReqHome
| ReqLogin (m : method) (form : Form)
| ReqRegister (m : method) (form : Form)
| ReqLogout
| ReqSell (m : method) (form : Form) (file : option FileStorage)
| ReqItemDetails (id : Z)
| ReqMyItems
| ReqBuy (id : Z)
| ReqChat (id : Z)
| ReqSendMessage (json : option Json.value)
| ReqSendMessageUnparsable
| ReqGetMessages (to : Z)
| ReqApiInfo
| ReqPaymentChecksum (order_id txn_amount : string)
| ReqPaytmRedirect (form : Form).

(** The session cookie: the identifier of the logged-in user, if any. *)
Definition Session : Type := option Z.

(** ** Queries *)

(** [Model.query.get(id)]: the row with that primary key. *)
Definition get_user (d : Store) (id : Z) : option User :=
  find (fun u => user_id u =? id) (users d).

(** For items the key comes from the client: the row with that key,
    among the keys the driver binds (on any other key the statement is
    never run, see [get_or_404]). *)
Definition get_item (d : Store) (id : Z) : option Item :=
  if Sql.int64 id then find (fun it => item_id it =? id) (items d)
  else None.

(** [Item.query.get_or_404(id)]: the row, or the answer that ends the
    request: 404 when no row has the key, an uncaught OverflowError when
    the driver cannot bind it. *)
Definition get_or_404 (d : Store) (id : Z) : Response + Item :=
  if Sql.int64 id
  then match get_item d id with
       | Some item => inr item
       | None => inl (Abort 404)
       end
  else inl (Fault "OverflowError").

(** [load_user] and the [current_user] proxy built on it. *)
Definition load_user (d : Store) (id : Z) : option User := get_user d id.

Definition current_user (d : Store) (s : Session) : option User :=
  match s with
  | Some id => load_user d id
  | None => None
  end.

(** The filter of [login]: the identifier against the three identity
    columns. *)
Definition matches_login (login_input : string) (u : User) : bool :=
  String.eqb (username u) login_input
  || String.eqb (email u) login_input
  || String.eqb (phone u) login_input.

(** The row [login] takes with [.first()]: the store answers the OR of
    the three comparisons through the unique index of each column in
    turn, so a user of that username comes first, then one of that
    email, then one of that phone. Any row it yields satisfies
    [matches_login]. *)
Definition first_login_match (login_input : string) (us : list User)
  : option User :=
  match find (fun u => String.eqb (username u) login_input) us with
  | Some u => Some u
  | None =>
      match find (fun u => String.eqb (email u) login_input) us with
      | Some u => Some u
      | None => find (fun u => String.eqb (phone u) login_input) us
      end
  end.

(** The filter of [register]: each submitted field against its column. *)
Definition collides (name mail tel : string) (u : User) : bool :=
  String.eqb (username u) name
  || String.eqb (email u) mail
  || String.eqb (phone u) tel.

(** The filter both chat queries share. *)
Definition between (a b : Z) (m : ChatMessage) : bool :=
  (from_user_id m =? a) && Sql.eq_int (to_user_id m) b
  || (from_user_id m =? b) && Sql.eq_int (to_user_id m) a.

(** [order_by(ChatMessage.timestamp)]: ascending, rows of equal
    timestamp in row order. *)
Fixpoint insert_by_timestamp (m : ChatMessage) (l : list ChatMessage)
  : list ChatMessage :=
  match l with
  | [] => [m]
  | h :: t => if timestamp m <=? timestamp h then m :: l
              else h :: insert_by_timestamp m t
  end.

Definition order_by_timestamp (l : list ChatMessage) : list ChatMessage :=
  fold_right insert_by_timestamp [] l.

(** The conversation query of [chat_with_seller] and [get_messages]. *)
Definition get_conversation (d : Store) (a b : Z) : list ChatMessage :=
  order_by_timestamp (filter (between a b) (messages d)).

(** The query as the views run it: both keys are bound as parameters,
    and a key the driver cannot bind raises OverflowError ([None]). *)
Definition query_conversation (d : Store) (a b : Z)
  : option (list ChatMessage) :=
  if Sql.int64 a && Sql.int64 b then Some (get_conversation d a b)
  else None.

(** ** Writes *)

(** INSERT of a user: the three unique columns reject a duplicate. *)
Definition insert_user (d : Store) (u : User) : option Store :=
  if existsb (collides (username u) (email u) (phone u)) (users d)
  then None
  else Some {| users := (users d ++ [u])%list; items := items d;
               messages := messages d; uploads := uploads d |}.

Definition with_price (it : Item) (x : spec_float) : Item :=
  {| item_id := item_id it; title := title it;
     description := description it; price := x;
     currency := currency it; image_filename := image_filename it;
     seller_id := seller_id it; location := location it;
     latitude := latitude it; longitude := longitude it;
     is_sold := is_sold it |}.

(** INSERT of an item: [price] is NOT NULL, so a NaN (bound as NULL) is
    refused; the row holds the price as the store returns it. *)
Definition insert_item (d : Store) (it : Item) : option Store :=
  match Sql.stored_real (price it) with
  | None => None
  | Some x =>
      Some {| users := users d;
              items := (items d ++ [with_price it x])%list;
              messages := messages d; uploads := uploads d |}
  end.

(** INSERT of a message: [message] is NOT NULL. *)
Definition insert_message (d : Store) (m : ChatMessage) : option Store :=
  match message m with
  | Sql.Null => None
  | _ => Some {| users := users d; items := items d;
                 messages := (messages d ++ [m])%list;
                 uploads := uploads d |}
  end.

(** UPDATE item SET is_sold = 1 WHERE id = [id]. *)
Definition mark_sold (it : Item) : Item :=
  {| item_id := item_id it; title := title it;
     description := description it; price := price it;
     currency := currency it; image_filename := image_filename it;
     seller_id := seller_id it; location := location it;
     latitude := latitude it; longitude := longitude it;
     is_sold := true |}.

Definition update_sold (d : Store) (id : Z) : Store :=
  {| users := users d;
     items := map (fun it => if item_id it =? id then mark_sold it else it)
                  (items d);
     messages := messages d; uploads := uploads d |}.

(** [file.save(os.path.join(UPLOAD_FOLDER, name))] *)
Definition save_upload (d : Store) (name : string) (f : FileStorage) : Store :=
  {| users := users d; items := items d; messages := messages d;
     uploads := (name, content f) :: uploads d |}.

(** ** Helpers of the module *)

Definition ALLOWED_EXTENSIONS : list string := ["png"; "jpg"; "jpeg"; "gif"].

Definition allowed_file (name : string) : bool :=
  Py.contains "." name
  && match nth_error (Py.rsplit1 "." name) 1 with
     | Some ext => existsb (String.eqb (Py.lower ext)) ALLOWED_EXTENSIONS
     | None => false
     end.

(** ** Language negotiation of the request library

    [request.accept_languages] is the parsed Accept-Language header: the
    tags with their quality, as the library keeps them, sorted by
    specificity and quality. [best_match] follows the library's
    [LanguageAccept.best_match]: an exact match of normalised
    tags, then a match on the primary subtag of the accepted tags, then
    one on the primary subtag of the offered tags; the [default] when
    none of the three finds anything. *)

Module Werkzeug.

Definition Accept : Type := list (string * Q).

Definition Qlt_bool (x y : Q) : bool := negb (Qle_bool y x).

(** The sort key of an accepted value: a wildcard is less specific. *)
Definition specific (tag : string) : bool := negb (String.eqb tag "*").

(** [(specific a, qa) > (specific b, qb)] on the sort keys. *)
Definition key_gt (a b : string * Q) : bool :=
  match specific (fst a), specific (fst b) with
  | true, false => true
  | false, true => false
  | _, _ => Qlt_bool (snd b) (snd a)
  end.

Fixpoint insert_desc (x : string * Q) (l : list (string * Q))
  : list (string * Q) :=
  match l with
  | [] => [x]
  | h :: t => if key_gt h x then h :: insert_desc x t else x :: l
  end.

(** [Accept(values)]: the values sorted by specificity and quality,
    highest first, equal ones in the order given. *)
Definition make_accept (values : list (string * Q)) : Accept :=
  fold_right insert_desc [] values.

Definition is_delim (c : ascii) : bool :=
  Ascii.eqb c "_" || Ascii.eqb c "-".

(** The subtags of a tag: the pieces between [_] and [-]. *)
Fixpoint subtags (s : string) : list string :=
  match s with
  | EmptyString => [EmptyString]
  | String c s' =>
      if is_delim c then EmptyString :: subtags s'
      else match subtags s' with
           | [] => [String c EmptyString]
           | h :: t => String c h :: t
           end
  end.

Definition normalize_lang (tag : string) : list string :=
  subtags (Py.lower tag).

Definition primary (tag : string) : string := hd EmptyString (subtags tag).

Definition string_list_eqb (a b : list string) : bool :=
  (List.length a =? List.length b)%nat
  && forallb (fun p => String.eqb (fst p) (snd p)) (combine a b).

(** [Accept._value_matches] and its override in [LanguageAccept]. *)
Definition value_matches (value item : string) : bool :=
  String.eqb item "*" || String.eqb (Py.lower item) (Py.lower value).

Definition lang_matches (value item : string) : bool :=
  String.eqb item "*"
  || string_list_eqb (normalize_lang value) (normalize_lang item).

(** [Accept._best_single_match]: the first accepted value that matches
    the offered one (the list being sorted, the most specific one). *)
Fixpoint best_single_match (matchf : string -> string -> bool)
  (accepted : Accept) (server_item : string) : option (string * Q) :=
  match accepted with
  | [] => None
  | (client_item, quality) :: rest =>
      if matchf server_item client_item then Some (client_item, quality)
      else best_single_match matchf rest server_item
  end.

(** How specific an accepted value is: 1, or 0 for the wildcard; -1
    stands for nothing matched yet. *)
Definition specificity (tag : string) : Z := if specific tag then 1 else 0.

(** One round of the loop of [Accept.best_match]: an offered value whose
    match has quality zero, or less than the best so far, is passed
    over; it wins with a better quality, or with the same quality and a
    more specific match. *)
Definition consider (matchf : string -> string -> bool) (accepted : Accept)
  (best : option string * Q * Z) (server_item : string)
  : option string * Q * Z :=
  let '(result, best_quality, best_specificity) := best in
  match best_single_match matchf accepted server_item with
  | None => best
  | Some (client_item, quality) =>
      if Qle_bool quality 0 || Qlt_bool quality best_quality then best
      else if Qlt_bool best_quality quality
              || (best_specificity <? specificity client_item)
           then (Some server_item, quality, specificity client_item)
           else best
  end.

Definition accept_best_match (matchf : string -> string -> bool)
  (accepted : Accept) (matches : list string) (default : option string)
  : option string :=
  fst (fst (fold_left (consider matchf accepted) matches
              (default, (-1)%Q, -1))).

Definition best_match (accepted : Accept) (matches : list string)
  (default : option string) : option string :=
  match accept_best_match lang_matches accepted matches None with
  | Some r => Some r
  | None =>
      let fallback :=
        make_accept (map (fun p => (primary (fst p), snd p)) accepted) in
      match accept_best_match value_matches fallback matches None with
      | Some r => Some r
      | None =>
          match accept_best_match lang_matches accepted
                  (map primary matches) None with
          | Some r =>
              match find (fun item => String.prefix r item) matches with
              | Some item => Some item
              | None => default
              end
          | None => default
          end
      end
  end.

End Werkzeug.

(** [get_locale], the locale selector; [get_locale_from_request] is the
    same expression. *)
Definition get_locale (accept_languages : Werkzeug.Accept) : option string :=
  Werkzeug.best_match accept_languages ["en"; "hi"] None.

Definition get_locale_from_request (accept_languages : Werkzeug.Accept)
  : option string :=
  Werkzeug.best_match accept_languages ["en"; "hi"] None.

(** ** The handlers *)

(** [form[k]] raises a bad-request error (400) on a missing field, a
    failed conversion is an uncaught exception (500). *)
Notation "'required' x ':=' e 'in' d ';' k" :=
  (match e with Some x => k | None => (Abort 400, d) end)
  (at level 10, x name, e at level 10, d at level 0, k at level 200,
   only parsing).

Notation "'attempt' x ':=' e 'raising' exc 'in' d ';' k" :=
  (match e with Some x => k | None => (Fault exc, d) end)
  (at level 10, x name, e at level 10, exc at level 0, d at level 0,
   k at level 200, only parsing).

Definition option_string_eqb (a b : option string) : bool :=
  match a, b with
  | Some x, Some y => String.eqb x y
  | None, None => true
  | _, _ => false
  end.

Section Handlers.

Context {platform : Platform}.

(** [User.set_password] and [User.check_password] *)
Definition set_password (salt : string) (u : User) (password : string) : User :=
  {| user_id := user_id u; username := username u;
     password_hash := generate_password_hash salt password;
     email := email u; phone := phone u;
     is_admin := is_admin u; upi_id := upi_id u |}.

Definition check_password (u : User) (password : string) : bool :=
  check_password_hash (password_hash u) password.

Definition generate_checksum (params : list (string * option string))
  (key : option string) : option string :=
  sdk_generate_checksum params key.

Definition verify_checksum (params : list (string * option string))
  (checksum : string) (key : option string) : option bool :=
  sdk_verify_checksum params key checksum.

(** [@login_required]: an anonymous request is sent to the login view
    and the view is not run. *)
Definition login_required (d : Store) (s : Session)
  (view : User -> Response * Store) : Response * Store :=
  match current_user d s with
  | Some user => view user
  | None => (Redirect "login" ["Please log in to access this page."], d)
  end.

Definition home (d : Store) : Response :=
  Render "home.html" [] (ItemList (filter (fun it => negb (is_sold it)) (items d))).

Definition login (d : Store) (s : Session) (m : method) (form : Form)
  : Response * Session :=
  match current_user d s with
  | Some _ => (Redirect "home" [], s)
  | None =>
      match m with
      | POST =>
          required login_input := Py.assoc "login_input" form in s;
          required password := Py.assoc "password" form in s;
          match first_login_match login_input (users d) with
          | Some user =>
              if check_password user password
              then (Redirect "home" [], Some (user_id user))
              else (Render "login.html" ["Invalid username or password"] NoData, s)
          | None =>
              (Render "login.html" ["Invalid username or password"] NoData, s)
          end
      | GET => (Render "login.html" [] NoData, s)
      end
  end.

Definition register (amb : Ambient) (d : Store) (s : Session) (m : method)
  (form : Form) : Response * Store :=
  match current_user d s with
  | Some _ => (Redirect "home" [], d)
  | None =>
      match m with
      | POST =>
          required name := Py.assoc "username" form in d;
          required mail := Py.assoc "email" form in d;
          required tel := Py.assoc "phone" form in d;
          required password := Py.assoc "password" form in d;
          match find (collides name mail tel) (users d) with
          | Some _ =>
              (Redirect "register"
                 ["Username, email, or phone number already exists."], d)
          | None =>
              let new_user :=
                set_password (entropy amb)
                  {| user_id := next_id (map user_id (users d));
                     username := name; password_hash := "";
                     email := mail; phone := tel;
                     is_admin := false; upi_id := None |} password in
              attempt d' := insert_user d new_user raising "IntegrityError" in d;
              (Redirect "login" ["Registration successful! Please login."], d')
          end
      | GET => (Render "register.html" [] NoData, d)
      end
  end.

Definition logout (d : Store) (s : Session) : Response * Session :=
  match current_user d s with
  | Some _ => (Redirect "home" [], None)
  | None => (Redirect "login" ["Please log in to access this page."], s)
  end.

Definition sell_item (d : Store) (s : Session) (m : method) (form : Form)
  (file : option FileStorage) : Response * Store :=
  login_required d s (fun user =>
    match m with
    | POST =>
        required title_ := Py.assoc "title" form in d;
        required description_ := Py.assoc "description" form in d;
        required price_text := Py.assoc "price" form in d;
        attempt price_ := Py.float price_text raising "ValueError" in d;
        let currency_ :=
          match Py.assoc "currency" form with Some c => c | None => "INR" end in
        required location_ := Py.assoc "location" form in d;
        let '(name, d1) :=
          match file with
          | Some f =>
              if negb (String.eqb (filename f) "") && allowed_file (filename f)
              then let name := secure_filename (filename f) in
                   (Some name, save_upload d name f)
              else (None, d)
          | None => (None, d)
          end in
        let new_item :=
          {| item_id := next_id (map item_id (items d));
             title := title_; description := description_;
             price := price_; currency := currency_;
             image_filename := name; seller_id := user_id user;
             location := location_; latitude := None; longitude := None;
             is_sold := false |} in
        attempt d2 := insert_item d1 new_item raising "IntegrityError" in d1;
        (Redirect "home" ["Item listed successfully!"], d2)
    | GET => (Render "sell.html" [] NoData, d)
    end).

Definition item_details (d : Store) (id : Z) : Response :=
  match get_or_404 d id with
  | inr item => Render "item.html" [] (ItemView item (get_user d (seller_id item)))
  | inl answer => answer
  end.

Definition my_items (d : Store) (s : Session) : Response * Store :=
  login_required d s (fun user =>
    (Render "my_items.html" []
       (ItemList (filter (fun it => seller_id it =? user_id user) (items d))), d)).

Definition buy_item (d : Store) (s : Session) (id : Z) : Response * Store :=
  login_required d s (fun _ =>
    match get_or_404 d id with
    | inr item => (Render "buy.html" [] (ItemView item None), d)
    | inl answer => (answer, d)
    end).

Definition chat_with_seller (d : Store) (s : Session) (id : Z)
  : Response * Store :=
  login_required d s (fun user =>
    match get_or_404 d id with
    | inr item =>
        let seller := seller_id item in
        attempt msgs := query_conversation d (user_id user) seller
          raising "OverflowError" in d;
        (Render "chat.html" [] (ChatView item seller msgs), d)
    | inl answer => (answer, d)
    end).

Definition success_body : Json.value :=
  Json.VDict [("status", Json.VStr "success")].

Definition error_body : Json.value :=
  Json.VDict [("status", Json.VStr "error");
              ("message", Json.VStr "Invalid data")].

(** [request.json] is [None] here when the request does not declare a
    JSON body: the framework answers 415 before the view reads a field
    (a declared body that does not parse is the request
    [ReqSendMessageUnparsable]). A document that is not an object has no
    [get]; a value the driver cannot bind raises when the row is
    flushed, the recipient being bound before the body. *)
Definition send_message (amb : Ambient) (d : Store) (s : Session)
  (json : option Json.value) : Response * Store :=
  login_required d s (fun user =>
    match json with
    | None => (Abort 415, d)
    | Some (Json.VDict data) =>
        let to_user := Json.get data "to_user_id" in
        let body := Json.get data "message" in
        if Json.truthy to_user && Json.truthy body
        then
          match Sql.bind to_user, Sql.bind body with
          | Some to_value, Some body_value =>
              let new_message :=
                {| message_id := next_id (map message_id (messages d));
                   from_user_id := user_id user;
                   to_user_id := affinity Sql.IntegerColumn to_value;
                   message := affinity Sql.TextColumn body_value;
                   timestamp := utcnow amb |} in
              attempt d' := insert_message d new_message
                raising "IntegrityError" in d;
              (Jsonify 200 success_body, d')
          | None, _ => (Fault (Sql.bind_failure to_user), d)
          | _, None => (Fault (Sql.bind_failure body), d)
          end
        else (Jsonify 400 error_body, d)
    | Some _ => (Fault "AttributeError", d)
    end).

(** [send_message] on a body that declares JSON and does not parse:
    [request.json] answers 400. *)
Definition send_message_unparsable (d : Store) (s : Session)
  : Response * Store :=
  login_required d s (fun _ => (Abort 400, d)).

(** One entry of the list [get_messages] answers with; [None] when the
    sender's row is gone and [msg.from_user] has no [username]. *)
Definition message_entry (d : Store) (msg : ChatMessage) : option Json.value :=
  match get_user d (from_user_id msg) with
  | Some sender =>
      Some (Json.VDict [("from_user", Json.VStr (username sender));
                        ("message", Sql.load (message msg));
                        ("timestamp", Json.VStr (strftime (timestamp msg)))])
  | None => None
  end.

Fixpoint message_list (d : Store) (msgs : list ChatMessage)
  : option (list Json.value) :=
  match msgs with
  | [] => Some []
  | msg :: rest =>
      match message_entry d msg, message_list d rest with
      | Some e, Some es => Some (e :: es)
      | _, _ => None
      end
  end.

Definition get_messages (d : Store) (s : Session) (to : Z) : Response * Store :=
  login_required d s (fun user =>
    attempt msgs := query_conversation d (user_id user) to
      raising "OverflowError" in d;
    attempt entries := message_list d msgs raising "AttributeError" in d;
    (Jsonify 200 (Json.VList entries), d)).

Definition environ_get (amb : Ambient) (k : string) : option string :=
  Py.assoc k (environ amb).

Definition get_api_info (amb : Ambient) : Response :=
  let or_not_found o :=
    match o with Some v => v | None => "not-found" end in
  Jsonify 200
    (Json.VDict
       [("paytm_mid", Json.VStr (or_not_found (environ_get amb "PAYTM_MID")));
        ("paytm_api_key",
         Json.VStr (or_not_found (environ_get amb "PAYTM_API_KEY")))]).

Definition get_payment_checksum (amb : Ambient) (order_id txn_amount : string)
  : Response :=
  let paytm_mid := environ_get amb "PAYTM_MID" in
  let paytm_api_key := environ_get amb "PAYTM_API_KEY" in
  let paytm_params :=
    [("MID", paytm_mid); ("ORDERID", Some order_id);
     ("TXN_AMOUNT", Some txn_amount)] in
  match generate_checksum paytm_params paytm_api_key with
  | Some checksum => Jsonify 200 (Json.VDict [("checksum", Json.VStr checksum)])
  | None => Fault "Exception"
  end.

Definition paytm_redirect (d : Store) (form : Form) : Response * Store :=
  if option_string_eqb (Py.assoc "STATUS" form) (Some "TXN_SUCCESS")
  then
    attempt order_id := Py.assoc "ORDERID" form raising "AttributeError" in d;
    attempt segment := Py.index_last (Py.split "_" order_id)
      raising "IndexError" in d;
    attempt id := Py.int segment raising "ValueError" in d;
    match get_or_404 d id with
    | inr item =>
        (Redirect "home" ["Payment successful! The item is now marked as sold."],
         update_sold d (item_id item))
    | inl answer => (answer, d)
    end
  else (Redirect "home" ["Payment failed or cancelled."], d).

(** The start-up routine: [None] when the insert of the administrator
    violates a unique column. *)
Definition create_tables (amb : Ambient) (d : Store) : option Store :=
  match find (fun u => String.eqb (username u) "admin") (users d) with
  | Some _ => Some d
  | None =>
      insert_user d
        (set_password (entropy amb)
           {| user_id := next_id (map user_id (users d));
              username := "admin"; password_hash := "";
              email := "admin@example.com"; phone := "0000000000";
              is_admin := true; upi_id := Some "your-upi-id@bank" |}
           "adminpass")
  end.

(** The routing table: every request of the application, with the state
    and the session it leaves. *)
Definition handle (amb : Ambient) (d : Store) (s : Session) (req : Request)
  : Response * Store * Session :=
  match req with
  | ReqHome => (home d, d, s)
  | ReqLogin m form => let (r, s') := login d s m form in (r, d, s')
  | ReqRegister m form => (register amb d s m form, s)
  | ReqLogout => let (r, s') := logout d s in (r, d, s')
  | ReqSell m form file => (sell_item d s m form file, s)
  | ReqItemDetails id => (item_details d id, d, s)
  | ReqMyItems => (my_items d s, s)
  | ReqBuy id => (buy_item d s id, s)
  | ReqChat id => (chat_with_seller d s id, s)
  | ReqSendMessage json => (send_message amb d s json, s)
  | ReqSendMessageUnparsable => (send_message_unparsable d s, s)
  | ReqGetMessages to => (get_messages d s to, s)
  | ReqApiInfo => (get_api_info amb, d, s)
  | ReqPaymentChecksum order_id txn_amount =>
      (get_payment_checksum amb order_id txn_amount, d, s)
  | ReqPaytmRedirect form => (paytm_redirect d form, s)
  end.

(** One operation of the system: a request served, or the start-up
    routine run. *)
Inductive step : Store -> Store -> Prop :=
| step_request : forall amb d s req,
    step d (snd (fst (handle amb d s req)))
| step_create_tables : forall amb d d',
    create_tables amb d = Some d' -> step d d'.

(** Any number of operations, one after the other. *)
Inductive run : Store -> Store -> Prop :=
| run_nil : forall d, run d d
| run_step : forall d1 d2 d3, step d1 d2 -> run d2 d3 -> run d1 d3.

End Handlers.

(** A stand-in platform on which concrete requests are evaluated: the
    password is wrapped rather than hashed, file names and values are
    kept as they come, the gateway SDK signs with the key alone. *)
Definition toy_platform : Platform := {|
  generate_password_hash := fun _ password => "toy$" ++ password;
  check_password_hash := fun pwhash password =>
    String.eqb pwhash ("toy$" ++ password);
  secure_filename := fun name => name;
  strftime := fun _ => "1970-01-01 00:00:00";
  affinity := fun _ v => v;
  sdk_generate_checksum := fun _ key => key;
  sdk_verify_checksum := fun _ key checksum =>
    Some (option_string_eqb key (Some checksum));
  affinity_not_null := fun _ _ H => H
|}.

Definition empty_store : Store :=
  {| users := []; items := []; messages := []; uploads := [] |}.

Definition float_of_Z (n : Z) : spec_float :=
  binary_normalize Py.prec Py.emax n 0 false.

(** [seg] is the last [sep]-separated segment of [s]. *)
Definition last_segment (sep : ascii) (s seg : string) : Prop :=
  Py.contains sep seg = false
  /\ (s = seg \/ exists pre, s = pre ++ String sep seg).

(** The store of the spec's payment scenario: a seller, and item 42
    listed at 100 INR. *)
Definition seller_1 : User :=
  {| user_id := 1; username := "seller"; password_hash := "toy$secret";
     email := "seller@x.com"; phone := "111"; is_admin := false;
     upi_id := None |}.

Definition item_42 : Item :=
  {| item_id := 42; title := "bicycle"; description := "used bicycle";
     price := float_of_Z 100; currency := "INR"; image_filename := None;
     seller_id := 1; location := "Pune"; latitude := None;
     longitude := None; is_sold := false |}.

Definition shop_42 : Store :=
  {| users := [seller_1]; items := [item_42]; messages := []; uploads := [] |}.

Definition callback_success : Form :=
  [("STATUS", "TXN_SUCCESS"); ("ORDERID", "order_42")].

Definition callback_failure : Form :=
  [("STATUS", "TXN_FAILURE"); ("ORDERID", "order_42")].

(** The registrations of the spec's scenario. *)
Definition quiet : Ambient := {| utcnow := 0; entropy := "salt"; environ := [] |}.

Definition form_alice : Form :=
  [("username", "alice"); ("email", "alice@x.com"); ("phone", "111");
   ("password", "wonderland")].

Definition form_bob : Form :=
  [("username", "bob"); ("email", "alice@x.com"); ("phone", "222");
   ("password", "builder")].

Definition alice : User :=
  {| user_id := 1; username := "alice"; password_hash := "toy$wonderland";
     email := "alice@x.com"; phone := "111"; is_admin := false;
     upi_id := None |}.

Definition store_alice : Store :=
  {| users := [alice]; items := []; messages := []; uploads := [] |}.

(** Message payloads: to a user that does not exist, with a zero
    recipient, with an empty body, and with a forged sender. *)
Definition payload_unknown : Json.value :=
  Json.VDict [("to_user_id", Json.VInt 999); ("message", Json.VStr "hi")].

Definition payload_no_recipient : Json.value :=
  Json.VDict [("to_user_id", Json.VInt 0); ("message", Json.VStr "hi")].

Definition payload_no_body : Json.value :=
  Json.VDict [("to_user_id", Json.VInt 1); ("message", Json.VStr "")].

Definition payload_forged : Json.value :=
  Json.VDict [("from_user_id", Json.VInt 7); ("to_user_id", Json.VInt 1);
              ("message", Json.VStr "hi")].

(** A second user whose username is alice's phone number; the two
    stores hold the same users in either row order. *)
Definition user_111 : User :=
  {| user_id := 2; username := "111"; password_hash := "toy$builder";
     email := "b@x.com"; phone := "222"; is_admin := false; upi_id := None |}.

Definition form_111 : Form :=
  [("username", "111"); ("email", "b@x.com"); ("phone", "222");
   ("password", "builder")].

Definition store_alice_111 : Store :=
  {| users := [alice; user_111]; items := []; messages := []; uploads := [] |}.

Definition store_111_alice : Store :=
  {| users := [user_111; alice]; items := []; messages := []; uploads := [] |}.

Definition login_form (login_input password : string) : Form :=
  [("login_input", login_input); ("password", password)].

Definition invalid_credentials : Response :=
  Render "login.html" ["Invalid username or password"] NoData.

(** Three messages between alice (1) and the other user (2), stored
    out of time order, and one to a third party. *)
Definition chat_row (id sender recipient time : Z) (body : string)
  : ChatMessage :=
  {| message_id := id; from_user_id := sender;
     to_user_id := Sql.Int recipient; message := Sql.Text body;
     timestamp := time |}.

Definition store_chat : Store :=
  {| users := [alice; user_111]; items := [];
     messages := [chat_row 1 1 2 30 "third"; chat_row 2 2 1 10 "first";
                  chat_row 3 1 3 15 "elsewhere"; chat_row 4 1 2 20 "second"];
     uploads := [] |}.

(** Ascending timestamps. *)
Definition by_timestamp (m n : ChatMessage) : Prop :=
  timestamp m <= timestamp n.

(** Listings submitted with a negative and with a malformed price. *)
Definition sell_form (price_text : string) : Form :=
  [("title", "lamp"); ("description", "desk lamp"); ("price", price_text);
   ("location", "Pune")].


(** Primary keys of the item table are pairwise distinct. *)
Definition item_ids_unique (d : Store) : Prop :=
  NoDup (map item_id (items d)).

(** The store of the payment scenario once item 42 is paid. *)
Definition shop_42_sold : Store :=
  {| users := [seller_1]; items := [mark_sold item_42]; messages := [];
     uploads := [] |}.

Definition payment_done : Response :=
  Redirect "home" ["Payment successful! The item is now marked as sold."].

(** ** The writes the handlers make

    Every change of the store a handler commits is one of these five:
    a user, an item or a message inserted under the next key, an item
    marked sold, a file saved. *)
Inductive write : Store -> Store -> Prop :=
| write_user : forall d d' u,
    insert_user d u = Some d' ->
    user_id u = next_id (map user_id (users d)) ->
    (is_admin u = true -> username u = "admin") ->
    write d d'
| write_item : forall d d' it u,
    insert_item d it = Some d' ->
    item_id it = next_id (map item_id (items d)) ->
    is_sold it = false ->
    get_user d (seller_id it) = Some u ->
    write d d'
| write_message : forall d d' m u,
    insert_message d m = Some d' ->
    message_id m = next_id (map message_id (messages d)) ->
    get_user d (from_user_id m) = Some u ->
    write d d'
| write_sold : forall d id, write d (update_sold d id)
| write_upload : forall d name f, write d (save_upload d name f).

(** The keys and the three identity columns of the user table are each
    pairwise distinct. *)
Definition users_unique (d : Store) : Prop :=
  NoDup (map user_id (users d))
  /\ NoDup (map username (users d))
  /\ NoDup (map email (users d))
  /\ NoDup (map phone (users d)).

(** Every message has a stored sender, every item a stored seller. *)
Definition senders_stored (d : Store) : Prop :=
  forall m, In m (messages d) -> exists u, get_user d (from_user_id m) = Some u.

Definition sellers_stored (d : Store) : Prop :=
  forall it, In it (items d) -> exists u, get_user d (seller_id it) = Some u.

(** [l] with rows appended. *)
Definition extends {A : Type} (l l' : list A) : Prop :=
  exists added, l' = (l ++ added)%list.

(** Only the bootstrap account is an administrator. *)
Definition only_admin (d : Store) : Prop :=
  forall u, In u (users d) -> is_admin u = true -> username u = "admin".

(** Requests used to evaluate runs: alice registers, lists a lamp and
    writes to herself. *)
Definition req_register_alice : Request := ReqRegister POST form_alice.

Definition req_sell_lamp : Request := ReqSell POST (sell_form "250") None.

Definition payload_hello : Json.value :=
  Json.VDict [("to_user_id", Json.VInt 2); ("message", Json.VStr "hello")].

(** The routes decorated with [@login_required]. *)
Definition protected (req : Request) : bool :=
  match req with
  | ReqLogout | ReqSell _ _ _ | ReqMyItems | ReqBuy _ | ReqChat _
  | ReqSendMessage _ | ReqSendMessageUnparsable | ReqGetMessages _ => true
  | _ => false
  end.

Definition please_log_in : Response :=
  Redirect "login" ["Please log in to access this page."].


(** The image a listing keeps and the upload folder after it, as
    [sell_item] decides them from the uploaded file. *)
Definition image_kept {platform : Platform} (d : Store)
  (file : option FileStorage) : option string * list (string * string) :=
  match file with
  | Some f =>
      if negb (String.eqb (filename f) "") && allowed_file (filename f)
      then (Some (secure_filename (filename f)),
            (secure_filename (filename f), content f) :: uploads d)
      else (None, uploads d)
  | None => (None, uploads d)
  end.

Definition lamp_photo : FileStorage :=
  {| filename := "lamp.JPG"; content := "jpeg bytes" |}.

Definition lamp_script : FileStorage :=
  {| filename := "lamp.jpg.exe"; content := "program" |}.

(** The hasher accepts the password a hash was made from. *)
Definition hasher_sound {platform : Platform} (salt password : string) : Prop :=
  check_password_hash (generate_password_hash salt password) password = true.

Definition form_bob_own : Form :=
  [("username", "bob"); ("email", "bob@x.com"); ("phone", "222");
   ("password", "builder")].

Definition admin_taken : User :=
  {| user_id := 1; username := "root"; password_hash := "toy$x";
     email := "r@x.com"; phone := "0000000000"; is_admin := false;
     upi_id := None |}.

Definition store_admin_taken : Store :=
  {| users := [admin_taken]; items := []; messages := []; uploads := [] |}.


(** The store after alice has registered and listed two lamps. *)
Definition two_listings : Store :=
  let d1 := snd (fst (handle (platform := toy_platform) quiet empty_store
                        None req_register_alice)) in
  let d2 := snd (fst (handle (platform := toy_platform) quiet d1 (Some 1)
                        req_sell_lamp)) in
  snd (fst (handle (platform := toy_platform) quiet d2 (Some 1)
              req_sell_lamp)).

(** * Properties *)

(** ** Text primitives *)

Lemma split_not_nil (sep : ascii) (s : string) : Py.split sep s <> [].
Proof.
  destruct s as [|c s]; simpl; [discriminate|].
  destruct (Ascii.eqb c sep); [discriminate|].
  destruct (Py.split sep s); discriminate.
Qed.

Lemma split_without_sep (sep : ascii) (s : string) :
  Py.contains sep s = false -> Py.split sep s = [s].
Proof.
  induction s as [|c s IH]; simpl; intros H; [reflexivity|].
  apply orb_false_iff in H as [Hc Hs].
  rewrite Hc, (IH Hs). reflexivity.
Qed.

Lemma index_last_cons {A : Type} (x : A) (l : list A) :
  l <> [] -> Py.index_last (x :: l) = Py.index_last l.
Proof. destruct l; [congruence | reflexivity]. Qed.

Lemma index_last_app {A : Type} (l m : list A) :
  m <> [] -> Py.index_last (l ++ m)%list = Py.index_last m.
Proof.
  intros Hm. induction l as [|a l IH]; [reflexivity|].
  simpl app. rewrite index_last_cons; [exact IH|].
  destruct l; simpl; [exact Hm | discriminate].
Qed.

Lemma split_app_sep (sep : ascii) (pre rest : string) :
  exists l, l <> []
            /\ Py.split sep (pre ++ String sep rest) = (l ++ Py.split sep rest)%list.
Proof.
  induction pre as [|c pre [l [Hne IH]]]; simpl.
  - rewrite Ascii.eqb_refl. exists [EmptyString].
    split; [discriminate | reflexivity].
  - destruct (Ascii.eqb c sep).
    + exists (EmptyString :: l). rewrite IH.
      split; [discriminate | reflexivity].
    + rewrite IH. destruct l as [|h t]; [congruence|].
      exists (String c h :: t). split; [discriminate | reflexivity].
Qed.

Lemma split_last_after_sep (sep : ascii) (pre rest : string) :
  Py.index_last (Py.split sep (pre ++ String sep rest))
  = Py.index_last (Py.split sep rest).
Proof.
  destruct (split_app_sep sep pre rest) as [l [_ ->]].
  apply index_last_app, split_not_nil.
Qed.

(** The last element of [s.split(sep)] is the last segment of [s]. *)
Lemma split_last_segment (sep : ascii) (s seg : string) :
  last_segment sep s seg -> Py.index_last (Py.split sep s) = Some seg.
Proof.
  intros [Hseg [-> | [pre ->]]].
  - rewrite split_without_sep by assumption. reflexivity.
  - rewrite split_last_after_sep, split_without_sep by assumption. reflexivity.
Qed.

Lemma index_last_some {A : Type} (l : list A) :
  l <> [] -> exists x, Py.index_last l = Some x.
Proof.
  induction l as [|a l IH]; [congruence|]. intros _.
  destruct l as [|b l]; [exists a; reflexivity|].
  destruct IH as [x Hx]; [discriminate|]. exists x. exact Hx.
Qed.

(** What [int] and [float] take and refuse at the edges: blanks around
    the number but not the separator U+001F, a sign, digit groups, at
    most 4300 digits. *)
Example number_parsers_edges :
  Py.int (String "009" "42 ") = Some 42
  /\ Py.int (String "4" (String "2" (String "031" ""))) = None
  /\ Py.int "+1_000" = Some 1000
  /\ Py.int "1__0" = None
  /\ Py.int "" = None
  /\ Py.float (String "5" (String "031" "")) = None
  /\ Py.float "-0" = Some (S754_zero true)
  /\ Py.float "1e400" = Some (S754_infinity false)
  /\ Py.float "0.1" = Some (S754_finite false 7205759403792794 (-56))
  /\ Py.float "1e" = None.
Proof. repeat split; reflexivity. Qed.

(** [order_id.split('_')[-1]] never raises. *)
Lemma split_last_total (sep : ascii) (s : string) :
  exists seg, Py.index_last (Py.split sep s) = Some seg.
Proof. apply index_last_some, split_not_nil. Qed.

Lemma option_string_eqb_eq (a b : option string) :
  option_string_eqb a b = true <-> a = b.
Proof.
  destruct a as [x|], b as [y|]; simpl; split; try congruence.
  - intros H. apply String.eqb_eq in H. congruence.
  - intros [= ->]. apply String.eqb_refl.
Qed.

(** ** The payment callback *)

Lemma mark_sold_id (it : Item) : item_id (mark_sold it) = item_id it.
Proof. reflexivity. Qed.

Lemma get_item_update_sold (d : Store) (id k : Z) :
  get_item (update_sold d k) id
  = option_map (fun it => if item_id it =? k then mark_sold it else it)
               (get_item d id).
Proof.
  unfold get_item, update_sold; cbn [items].
  destruct (Sql.int64 id); [|reflexivity].
  induction (items d) as [|it l IH]; simpl; [reflexivity|].
  assert (E : item_id (if item_id it =? k then mark_sold it else it)
              = item_id it) by (destruct (item_id it =? k); reflexivity).
  rewrite E. destruct (item_id it =? id); [reflexivity | exact IH].
Qed.

Lemma get_item_in (d : Store) (id : Z) (it : Item) :
  get_item d id = Some it ->
  Sql.int64 id = true /\ In it (items d) /\ item_id it = id.
Proof.
  unfold get_item. destruct (Sql.int64 id); [|discriminate].
  intros H. apply find_some in H as [Hin H].
  apply Z.eqb_eq in H. auto.
Qed.

Lemma get_item_id (d : Store) (id : Z) (it : Item) :
  get_item d id = Some it -> item_id it = id.
Proof. intros H. apply (get_item_in _ _ _ H). Qed.

Lemma get_or_404_found (d : Store) (id : Z) (it : Item) :
  get_item d id = Some it -> get_or_404 d id = inr it.
Proof.
  intros H. unfold get_or_404.
  rewrite (proj1 (get_item_in _ _ _ H)), H. reflexivity.
Qed.

Lemma get_or_404_cases (d : Store) (id : Z) :
  (exists it, get_item d id = Some it /\ get_or_404 d id = inr it)
  \/ (exists answer, get_or_404 d id = inl answer).
Proof.
  unfold get_or_404. destruct (Sql.int64 id); [|right; eauto].
  destruct (get_item d id) as [it|]; [left | right]; eauto.
Qed.

(** The callback on a success status, step by step. *)
Lemma paytm_redirect_success (d : Store) (form : Form)
  (order_id seg : string) (id : Z) (item : Item) :
  Py.assoc "STATUS" form = Some "TXN_SUCCESS" ->
  Py.assoc "ORDERID" form = Some order_id ->
  last_segment "_" order_id seg ->
  Py.int seg = Some id ->
  get_item d id = Some item ->
  paytm_redirect d form
  = (Redirect "home" ["Payment successful! The item is now marked as sold."],
     update_sold d id).
Proof.
  intros Hst Hord Hseg Hint Hget. unfold paytm_redirect.
  rewrite Hst, Hord. simpl option_string_eqb.
  rewrite (split_last_segment _ _ _ Hseg), Hint, (get_or_404_found _ _ _ Hget).
  rewrite (get_item_id _ _ _ Hget). reflexivity.
Qed.

Lemma paytm_redirect_other_status (d : Store) (form : Form) :
  Py.assoc "STATUS" form <> Some "TXN_SUCCESS" ->
  paytm_redirect d form
  = (Redirect "home" ["Payment failed or cancelled."], d).
Proof.
  intros H. unfold paytm_redirect.
  destruct (option_string_eqb (Py.assoc "STATUS" form) (Some "TXN_SUCCESS"))
    eqn:E; [|reflexivity].
  apply option_string_eqb_eq in E. contradiction.
Qed.

(** Whatever the callback answers, it either leaves the store as it was
    or marks one item sold. *)
Lemma paytm_redirect_store (d : Store) (form : Form) :
  snd (paytm_redirect d form) = d
  \/ exists id item, get_item d id = Some item
                     /\ snd (paytm_redirect d form) = update_sold d id.
Proof.
  unfold paytm_redirect.
  destruct (option_string_eqb _ _); [|left; reflexivity].
  destruct (Py.assoc "ORDERID" form) as [o|]; [|left; reflexivity].
  destruct (Py.index_last _) as [seg|]; [|left; reflexivity].
  destruct (Py.int seg) as [id|]; [|left; reflexivity].
  destruct (get_or_404_cases d id) as [(item & E & ->)|[answer ->]];
    [|left; reflexivity].
  right. exists id, item. rewrite (get_item_id _ _ _ E). auto.
Qed.

(** C1. A payment callback whose STATUS is TXN_SUCCESS takes the last
    underscore-separated segment of ORDERID as the item identifier, loads
    that Item and sets its is_sold flag (the other fields, the other
    items and the other tables stay as they were); a callback with any
    other status, or none, changes nothing. *)
Theorem paytm_redirect_sets_sold (d : Store) (form : Form) :
  (forall order_id seg id item,
      Py.assoc "STATUS" form = Some "TXN_SUCCESS" ->
      Py.assoc "ORDERID" form = Some order_id ->
      last_segment "_" order_id seg ->
      Py.int seg = Some id ->
      get_item d id = Some item ->
      let d' := snd (paytm_redirect d form) in
      get_item d' id = Some (mark_sold item)
      /\ is_sold (mark_sold item) = true
      /\ items d' = map (fun it => if item_id it =? id then mark_sold it else it)
                        (items d)
      /\ (forall it, In it (items d) -> item_id it <> id -> In it (items d'))
      /\ users d' = users d /\ messages d' = messages d
      /\ uploads d' = uploads d)
  /\ (Py.assoc "STATUS" form <> Some "TXN_SUCCESS" ->
      snd (paytm_redirect d form) = d).
Proof.
  split.
  - intros order_id seg id item Hst Hord Hseg Hint Hget d'.
    subst d'. rewrite (paytm_redirect_success d form order_id seg id item)
      by assumption.
    cbn [snd]. rewrite get_item_update_sold, Hget. cbn [option_map].
    rewrite (get_item_id _ _ _ Hget), Z.eqb_refl.
    repeat split; try reflexivity.
    intros it Hin Hne. cbn [update_sold items]. apply in_map_iff.
    exists it. split; [|exact Hin].
    destruct (item_id it =? id) eqn:E; [|reflexivity].
    apply Z.eqb_eq in E. contradiction.
  - intros H. rewrite paytm_redirect_other_status by exact H. reflexivity.
Qed.

Lemma paytm_redirect_sets_sold_witness :
  get_item (snd (paytm_redirect shop_42 callback_success)) 42
  = Some (mark_sold item_42)
  /\ snd (paytm_redirect shop_42 callback_failure) = shop_42.
Proof.
  split.
  - apply (proj1 (paytm_redirect_sets_sold shop_42 callback_success)
             "order_42" "42" 42 item_42); try reflexivity.
    split; [reflexivity | right; exists "order"; reflexivity].
  - apply (proj2 (paytm_redirect_sets_sold shop_42 callback_failure)).
    discriminate.
Defined.

(** The scenario of the spec: after the callback for "order_42" the home
    listing no longer shows item 42. *)
Example paytm_redirect_order_42 :
  home shop_42 = Render "home.html" [] (ItemList [item_42])
  /\ home (snd (paytm_redirect shop_42 callback_success))
     = Render "home.html" [] (ItemList []).
Proof. split; reflexivity. Qed.

(** ** Registration *)

Lemma collides_true (name mail tel : string) (u : User) :
  collides name mail tel u = true
  <-> username u = name \/ email u = mail \/ phone u = tel.
Proof.
  unfold collides. rewrite !orb_true_iff, !String.eqb_eq. tauto.
Qed.

Lemma find_collides_some (name mail tel : string) (l : list User) :
  (exists u, In u l /\ (username u = name \/ email u = mail \/ phone u = tel))
  -> exists u, find (collides name mail tel) l = Some u.
Proof.
  intros [u [Hin Hu]].
  destruct (find (collides name mail tel) l) as [v|] eqn:E; [eauto|].
  apply (find_none _ _ E) in Hin. apply collides_true in Hu. congruence.
Qed.

Lemma find_collides_none (name mail tel : string) (l : list User) :
  (forall u, In u l -> username u <> name /\ email u <> mail /\ phone u <> tel)
  -> find (collides name mail tel) l = None
     /\ existsb (collides name mail tel) l = false.
Proof.
  intros H.
  assert (E : existsb (collides name mail tel) l = false).
  { destruct (existsb _ l) eqn:E; [|reflexivity].
    apply existsb_exists in E as [u [Hin Hu]].
    apply collides_true in Hu. destruct (H u Hin) as (? & ? & ?). tauto. }
  split; [|exact E].
  destruct (find _ l) as [u|] eqn:F; [|reflexivity].
  apply find_some in F as [Hin Hu].
  assert (existsb (collides name mail tel) l = true)
    by (apply existsb_exists; eauto).
  congruence.
Qed.

(** C2. A registration (a POST of the four fields by a client that is
    not logged in) whose username, email or phone equals that field of a
    stored user is answered with the duplicate message and leaves the
    store as it was; one whose three fields are all new appends exactly
    one user, with the submitted identity and the hash of the password. *)
Theorem register_duplicate_or_created {platform : Platform}
  (amb : Ambient) (d : Store) (s : Session) (form : Form)
  (name mail tel password : string) :
  current_user d s = None ->
  Py.assoc "username" form = Some name ->
  Py.assoc "email" form = Some mail ->
  Py.assoc "phone" form = Some tel ->
  Py.assoc "password" form = Some password ->
  ((exists u, In u (users d)
              /\ (username u = name \/ email u = mail \/ phone u = tel)) ->
   register amb d s POST form
   = (Redirect "register"
        ["Username, email, or phone number already exists."], d))
  /\ ((forall u, In u (users d) ->
                 username u <> name /\ email u <> mail /\ phone u <> tel) ->
      exists new_user d',
        register amb d s POST form
        = (Redirect "login" ["Registration successful! Please login."], d')
        /\ users d' = (users d ++ [new_user])%list
        /\ username new_user = name /\ email new_user = mail
        /\ phone new_user = tel
        /\ password_hash new_user
           = generate_password_hash (entropy amb) password
        /\ user_id new_user = next_id (map user_id (users d))
        /\ items d' = items d /\ messages d' = messages d
        /\ uploads d' = uploads d).
Proof.
  intros Hanon Hn Hm Ht Hp. unfold register.
  rewrite Hanon, Hn, Hm, Ht, Hp. split.
  - intros Hdup. apply find_collides_some in Hdup as [u ->]. reflexivity.
  - intros Hfresh. apply find_collides_none in Hfresh as [Hfind Hex].
    rewrite Hfind. unfold insert_user. cbn [username email phone set_password].
    rewrite Hex. eexists; eexists. split; [reflexivity|].
    cbn. repeat split; reflexivity.
Qed.

Lemma register_duplicate_or_created_witness :
  (exists new_user d',
      register (platform := toy_platform) quiet empty_store None POST form_alice
      = (Redirect "login" ["Registration successful! Please login."], d')
      /\ users d' = [new_user] /\ username new_user = "alice")
  /\ register (platform := toy_platform) quiet store_alice None POST form_bob
     = (Redirect "register"
          ["Username, email, or phone number already exists."], store_alice).
Proof.
  split.
  - destruct (proj2 (register_duplicate_or_created (platform := toy_platform)
                       quiet empty_store None form_alice
                       "alice" "alice@x.com" "111" "wonderland"
                       eq_refl eq_refl eq_refl eq_refl eq_refl))
      as (u & d' & H1 & H2 & H3 & _).
    + intros u [].
    + exists u, d'. auto.
  - apply (proj1 (register_duplicate_or_created (platform := toy_platform)
                    quiet store_alice None form_bob
                    "bob" "alice@x.com" "222" "builder"
                    eq_refl eq_refl eq_refl eq_refl eq_refl)).
    exists alice. split; [left; reflexivity | right; left; reflexivity].
Defined.

(** The scenario of the spec: alice registers, then bob with alice's
    email is turned away, and one user holds that email. *)
Example register_alice_then_bob :
  let d1 := snd (register (platform := toy_platform)
                   quiet empty_store None POST form_alice) in
  d1 = store_alice
  /\ snd (register (platform := toy_platform) quiet d1 None POST form_bob) = d1
  /\ List.length (filter (fun u => String.eqb (email u) "alice@x.com")
                         (users d1)) = 1%nat.
Proof. repeat split; reflexivity. Qed.

(** ** Messaging: sending *)

Lemma insert_message_stored (d : Store) (m : ChatMessage) :
  message m <> Sql.Null ->
  insert_message d m
  = Some {| users := users d; items := items d;
            messages := (messages d ++ [m])%list; uploads := uploads d |}.
Proof.
  unfold insert_message. destruct (message m); try reflexivity. congruence.
Qed.

Lemma insert_message_some (d d' : Store) (m : ChatMessage) :
  insert_message d m = Some d' ->
  messages d' = (messages d ++ [m])%list
  /\ users d' = users d /\ items d' = items d /\ uploads d' = uploads d.
Proof.
  unfold insert_message.
  destruct (message m); try discriminate; intros [= <-]; auto.
Qed.

Section SendMessage.

Context {platform : Platform}.

Lemma login_required_user (d : Store) (s : Session) (user : User)
  (view : User -> Response * Store) :
  current_user d s = Some user -> login_required d s view = view user.
Proof. intros H. unfold login_required. rewrite H. reflexivity. Qed.

Lemma login_required_anonymous (d : Store) (s : Session)
  (view : User -> Response * Store) :
  current_user d s = None ->
  login_required d s view
  = (Redirect "login" ["Please log in to access this page."], d).
Proof. intros H. unfold login_required. rewrite H. reflexivity. Qed.

(** A 200 answer of [send_message] comes with exactly one new row, sent
    by the session's user at the server's time. *)
Lemma send_message_success (amb : Ambient) (d d' : Store) (s : Session)
  (json : option Json.value) (body : Json.value) :
  send_message amb d s json = (Jsonify 200 body, d') ->
  exists user m,
    current_user d s = Some user
    /\ insert_message d m = Some d'
    /\ from_user_id m = user_id user
    /\ timestamp m = utcnow amb.
Proof.
  unfold send_message, login_required.
  destruct (current_user d s) as [user|]; [|discriminate].
  destruct json as [[| | | | | |data]|]; try discriminate.
  destruct (Json.truthy _ && Json.truthy _); [|discriminate].
  destruct (Sql.bind (Json.get data "to_user_id")) as [tv|]; [|discriminate].
  destruct (Sql.bind (Json.get data "message")) as [bv|]; [|discriminate].
  destruct (insert_message d _) as [d2|] eqn:E; [|discriminate].
  intros [= _ <-]. eexists; eexists. split; [reflexivity|].
  split; [exact E|]. split; reflexivity.
Qed.

End SendMessage.

(** C3, as the code has it. For a logged-in user and a JSON object,
    [send_message] answers {status: error} with HTTP 400, persisting
    nothing, exactly when [to_user_id] or [message] is absent or falsy;
    whether the recipient is a stored user is not looked at. With both
    present, truthy and storable, it answers 200 and appends exactly one
    row. *)
Theorem send_message_validation {platform : Platform}
  (amb : Ambient) (d : Store) (s : Session) (user : User)
  (data : list (string * Json.value)) :
  current_user d s = Some user ->
  let to_user := Json.get data "to_user_id" in
  let body := Json.get data "message" in
  let r := send_message amb d s (Some (Json.VDict data)) in
  (fst r = Jsonify 400 error_body
   <-> Json.truthy to_user = false \/ Json.truthy body = false)
  /\ (Json.truthy to_user = false \/ Json.truthy body = false -> snd r = d)
  /\ (forall to_value body_value,
         Json.truthy to_user = true -> Json.truthy body = true ->
         Sql.bind to_user = Some to_value ->
         Sql.bind body = Some body_value ->
         body_value <> Sql.Null ->
         fst r = Jsonify 200 success_body
         /\ exists m, messages (snd r) = (messages d ++ [m])%list
                      /\ from_user_id m = user_id user
                      /\ to_user_id m = affinity Sql.IntegerColumn to_value
                      /\ message m = affinity Sql.TextColumn body_value
                      /\ users (snd r) = users d /\ items (snd r) = items d).
Proof.
  intros Hu to_user body r. subst r. unfold send_message.
  rewrite (login_required_user _ _ _ _ Hu). fold to_user body.
  destruct (Json.truthy to_user) eqn:Et, (Json.truthy body) eqn:Eb;
    cbn [andb fst snd].
  - split; [|split].
    + split; [|intros [H|H]; discriminate].
      destruct (Sql.bind to_user), (Sql.bind body); try discriminate.
      destruct (insert_message d _); discriminate.
    + intros [H|H]; discriminate.
    + intros tv bv _ _ -> -> Hnull.
      rewrite insert_message_stored
        by (cbn [message]; apply affinity_not_null; exact Hnull).
      cbn [fst snd]. split; [reflexivity|].
      eexists. cbn. repeat split; reflexivity.
  - split; [|split]; [split; auto | reflexivity | discriminate].
  - split; [|split]; [split; auto | reflexivity | discriminate].
  - split; [|split]; [split; auto | reflexivity | discriminate].
Qed.

Lemma send_message_validation_witness :
  fst (send_message (platform := toy_platform) quiet store_alice (Some 1)
         (Some payload_no_recipient)) = Jsonify 400 error_body
  /\ snd (send_message (platform := toy_platform) quiet store_alice (Some 1)
            (Some payload_no_body)) = store_alice.
Proof.
  split.
  - apply (proj1 (send_message_validation (platform := toy_platform)
                    quiet store_alice (Some 1) alice
                    [("to_user_id", Json.VInt 0); ("message", Json.VStr "hi")]
                    eq_refl)).
    left. reflexivity.
  - apply (proj1 (proj2 (send_message_validation (platform := toy_platform)
                    quiet store_alice (Some 1) alice
                    [("to_user_id", Json.VInt 1); ("message", Json.VStr "")]
                    eq_refl))).
    right. reflexivity.
Defined.

(** C3 as stated fails: no user 999 is stored, yet the message to 999 is
    accepted with 200 and persisted. *)
Lemma send_message_unknown_recipient :
  get_user store_alice 999 = None
  /\ Json.truthy (Json.VStr "hi") = true
  /\ fst (send_message (platform := toy_platform) quiet store_alice (Some 1)
            (Some payload_unknown)) = Jsonify 200 success_body
  /\ List.length
       (messages (snd (send_message (platform := toy_platform) quiet
                         store_alice (Some 1) (Some payload_unknown))))
     = 1%nat.
Proof. repeat split; reflexivity. Qed.

(** C10. A successful [send_message] persists a row whose sender is the
    session's user, whatever the payload holds: two successful requests
    of one user have the same sender. *)
Theorem send_message_sender {platform : Platform}
  (amb1 amb2 : Ambient) (d1 d2 d1' d2' : Store) (s1 s2 : Session)
  (user : User) (json1 json2 : option Json.value) (b1 b2 : Json.value) :
  current_user d1 s1 = Some user ->
  current_user d2 s2 = Some user ->
  send_message amb1 d1 s1 json1 = (Jsonify 200 b1, d1') ->
  send_message amb2 d2 s2 json2 = (Jsonify 200 b2, d2') ->
  exists m1 m2,
    messages d1' = (messages d1 ++ [m1])%list
    /\ messages d2' = (messages d2 ++ [m2])%list
    /\ from_user_id m1 = user_id user
    /\ from_user_id m2 = user_id user.
Proof.
  intros H1 H2 S1 S2.
  apply send_message_success in S1 as (u1 & m1 & C1 & I1 & F1 & _).
  apply send_message_success in S2 as (u2 & m2 & C2 & I2 & F2 & _).
  apply insert_message_some in I1 as [I1 _].
  apply insert_message_some in I2 as [I2 _].
  exists m1, m2. rewrite H1 in C1. rewrite H2 in C2.
  injection C1 as <-. injection C2 as <-. auto.
Qed.

Lemma send_message_sender_witness :
  exists m1 m2,
    messages (snd (send_message (platform := toy_platform) quiet store_alice
                     (Some 1) (Some payload_unknown))) = [m1]
    /\ messages (snd (send_message (platform := toy_platform) quiet store_alice
                        (Some 1) (Some payload_forged))) = [m2]
    /\ from_user_id m1 = 1 /\ from_user_id m2 = 1.
Proof.
  apply (send_message_sender (platform := toy_platform)
           quiet quiet store_alice store_alice _ _ (Some 1) (Some 1) alice
           (Some payload_unknown) (Some payload_forged)
           success_body success_body eq_refl eq_refl eq_refl eq_refl).
Defined.

(** ** Login *)

Lemma matches_login_true (login_input : string) (u : User) :
  matches_login login_input u = true
  <-> username u = login_input \/ email u = login_input
      \/ phone u = login_input.
Proof.
  unfold matches_login. rewrite !orb_true_iff, !String.eqb_eq. tauto.
Qed.

(** [query.filter(p).first()] is the first row that satisfies [p]. *)
Lemma find_first {A : Type} (p : A -> bool) (l : list A) (x : A) :
  find p l = Some x
  <-> exists before after,
        l = (before ++ x :: after)%list /\ p x = true
        /\ forall y, In y before -> p y = false.
Proof.
  split.
  - induction l as [|a l IH]; simpl; [discriminate|].
    destruct (p a) eqn:E.
    + intros [= ->]. exists [], l. repeat split; [exact E | intros y []].
    + intros H. destruct (IH H) as (b & c & -> & Hx & Hb).
      exists (a :: b), c. repeat split; [exact Hx|].
      intros y [<-|Hy]; [exact E | exact (Hb y Hy)].
  - intros (b & c & -> & Hx & Hb). induction b as [|a b IH]; simpl.
    + rewrite Hx. reflexivity.
    + rewrite (Hb a (or_introl eq_refl)). apply IH.
      intros y Hy. apply Hb. right. exact Hy.
Qed.

Lemma find_unique {A : Type} (p : A -> bool) (l : list A) (x : A) :
  In x l -> p x = true ->
  (forall y, In y l -> p y = true -> y = x) ->
  find p l = Some x.
Proof.
  intros Hin Hx Huniq.
  destruct (find p l) as [y|] eqn:E.
  - apply find_some in E as [Hy Hpy]. rewrite (Huniq y Hy Hpy). reflexivity.
  - apply (find_none _ _ E) in Hin. congruence.
Qed.

Lemma find_absent {A : Type} (p : A -> bool) (l : list A) :
  (forall y, In y l -> p y = false) -> find p l = None.
Proof.
  intros H. destruct (find p l) as [x|] eqn:E; [|reflexivity].
  apply find_some in E as [Hin Hx]. rewrite (H x Hin) in Hx. discriminate.
Qed.

(** Whatever row the login query yields is stored and carries the
    identifier in one of the three columns. *)
Lemma first_login_match_some (login_input : string) (us : list User)
  (u : User) :
  first_login_match login_input us = Some u ->
  In u us /\ matches_login login_input u = true.
Proof.
  unfold first_login_match, matches_login.
  destruct (find (fun v => String.eqb (username v) login_input) us)
    as [a|] eqn:Fa.
  { intros [= <-]. apply find_some in Fa as [Hin ->]. auto. }
  destruct (find (fun v => String.eqb (email v) login_input) us)
    as [b|] eqn:Fb.
  { intros [= <-]. apply find_some in Fb as [Hin ->].
    rewrite orb_true_r. auto. }
  intros Fc. apply find_some in Fc as [Hin ->]. rewrite orb_true_r. auto.
Qed.

Lemma first_login_match_none (login_input : string) (us : list User) :
  (forall u, In u us -> matches_login login_input u = false) ->
  first_login_match login_input us = None.
Proof.
  intros H. unfold first_login_match.
  rewrite !find_absent; [reflexivity| | |]; intros y Hy;
    specialize (H y Hy); unfold matches_login in H;
    apply orb_false_iff in H as [H1 H3];
    apply orb_false_iff in H1 as [H1 H2]; assumption.
Qed.

Lemma first_login_match_unique (login_input : string) (us : list User)
  (u : User) :
  In u us -> matches_login login_input u = true ->
  (forall v, In v us -> matches_login login_input v = true -> v = u) ->
  first_login_match login_input us = Some u.
Proof.
  intros Hin Hu Huniq.
  destruct (first_login_match login_input us) as [v|] eqn:E.
  - apply first_login_match_some in E as [Hv Hm].
    rewrite (Huniq v Hv Hm). reflexivity.
  - exfalso. unfold first_login_match in E.
    destruct (find (fun v => String.eqb (username v) login_input) us)
      eqn:Fa; [discriminate|].
    destruct (find (fun v => String.eqb (email v) login_input) us)
      eqn:Fb; [discriminate|].
    apply (find_none _ _ Fa) in Hin as Ha.
    apply (find_none _ _ Fb) in Hin as Hb.
    apply (find_none _ _ E) in Hin as Hc.
    unfold matches_login in Hu. rewrite Ha, Hb, Hc in Hu. discriminate.
Qed.

(** C5, as the code has it. A login (a POST of both fields by a client
    that is not logged in) looks the identifier up as a username, then
    as an email, then as a phone number, and takes the first user found
    in that order: the user of that username if there is one, else the
    user of that email, else the user of that phone. It succeeds,
    binding the session to that user, when the password verifies
    against that user's hash, and fails with the invalid-credentials
    message when it does not, or when no user carries the identifier.
    When a single stored user carries the identifier, that user is the
    one taken. *)
Theorem login_first_match {platform : Platform}
  (d : Store) (s : Session) (form : Form) (login_input password : string) :
  current_user d s = None ->
  Py.assoc "login_input" form = Some login_input ->
  Py.assoc "password" form = Some password ->
  let outcome u :=
    if check_password u password
    then (Redirect "home" [], Some (user_id u))
    else (invalid_credentials, s) in
  (forall u,
      In u (users d) -> username u = login_input ->
      (forall v, In v (users d) -> username v = login_input -> v = u) ->
      login d s POST form = outcome u)
  /\ (forall u,
         (forall v, In v (users d) -> username v <> login_input) ->
         In u (users d) -> email u = login_input ->
         (forall v, In v (users d) -> email v = login_input -> v = u) ->
         login d s POST form = outcome u)
  /\ (forall u,
         (forall v, In v (users d) ->
                    username v <> login_input /\ email v <> login_input) ->
         In u (users d) -> phone u = login_input ->
         (forall v, In v (users d) -> phone v = login_input -> v = u) ->
         login d s POST form = outcome u)
  /\ (forall u,
         In u (users d) ->
         username u = login_input \/ email u = login_input
         \/ phone u = login_input ->
         (forall v, In v (users d) ->
                    username v = login_input \/ email v = login_input
                    \/ phone v = login_input -> v = u) ->
         check_password u password = true ->
         login d s POST form = (Redirect "home" [], Some (user_id u)))
  /\ ((forall u, In u (users d) ->
                 username u <> login_input /\ email u <> login_input
                 /\ phone u <> login_input) ->
      login d s POST form = (invalid_credentials, s)).
Proof.
  intros Hanon Hl Hp outcome. unfold login. rewrite Hanon, Hl, Hp.
  assert (Hcol : forall (col : User -> string) u,
             In u (users d) -> col u = login_input ->
             (forall v, In v (users d) -> col v = login_input -> v = u) ->
             find (fun v => String.eqb (col v) login_input) (users d)
             = Some u).
  { intros col u Hin Hu Huniq. apply find_unique; [exact Hin | |].
    - apply String.eqb_eq. exact Hu.
    - intros y Hy Hm. apply Huniq; [exact Hy|].
      apply String.eqb_eq. exact Hm. }
  assert (Hno : forall (col : User -> string),
             (forall v, In v (users d) -> col v <> login_input) ->
             find (fun v => String.eqb (col v) login_input) (users d) = None).
  { intros col H. apply find_absent. intros y Hy.
    apply String.eqb_neq. exact (H y Hy). }
  split; [|split; [|split; [|split]]].
  - intros u Hin Hu Huniq. unfold first_login_match.
    rewrite (Hcol username u Hin Hu Huniq). reflexivity.
  - intros u Hnone Hin Hu Huniq. unfold first_login_match.
    rewrite (Hno username Hnone), (Hcol email u Hin Hu Huniq). reflexivity.
  - intros u Hnone Hin Hu Huniq. unfold first_login_match.
    rewrite (Hno username), (Hno email), (Hcol phone u Hin Hu Huniq);
      [reflexivity | |]; intros v Hv; apply (Hnone v Hv).
  - intros u Hin Hu Huniq Hcheck.
    rewrite (first_login_match_unique login_input (users d) u Hin).
    + rewrite Hcheck. reflexivity.
    + apply matches_login_true. exact Hu.
    + intros v Hv Hm. apply Huniq; [exact Hv|].
      apply matches_login_true. exact Hm.
  - intros Hnone. rewrite first_login_match_none; [reflexivity|].
    intros u Hin. destruct (matches_login login_input u) eqn:E;
      [|reflexivity].
    apply matches_login_true in E.
    destruct (Hnone u Hin) as (? & ? & ?). tauto.
Qed.

Lemma login_first_match_witness :
  login (platform := toy_platform) store_alice_111 None POST
    (login_form "111" "builder")
  = (Redirect "home" [], Some 2)
  /\ login (platform := toy_platform) store_alice_111 None POST
       (login_form "alice@x.com" "wonderland")
     = (Redirect "home" [], Some 1)
  /\ login (platform := toy_platform) store_alice_111 None POST
       (login_form "carol" "wonderland")
     = (invalid_credentials, None).
Proof.
  split; [|split].
  - apply (proj1 (login_first_match (platform := toy_platform)
                    store_alice_111 None (login_form "111" "builder")
                    "111" "builder" eq_refl eq_refl eq_refl)
             user_111).
    + right. left. reflexivity.
    + reflexivity.
    + intros v [<-|[<-|[]]] H; [discriminate H | reflexivity].
  - apply (proj1 (proj2 (proj2 (proj2 (login_first_match
                    (platform := toy_platform)
                    store_alice_111 None (login_form "alice@x.com" "wonderland")
                    "alice@x.com" "wonderland" eq_refl eq_refl eq_refl))))
             alice).
    + left. reflexivity.
    + right. left. reflexivity.
    + intros v [<-|[<-|[]]] H; [reflexivity|].
      destruct H as [H|[H|H]]; discriminate H.
    + reflexivity.
  - apply (proj2 (proj2 (proj2 (proj2 (login_first_match
                    (platform := toy_platform)
                    store_alice_111 None (login_form "carol" "wonderland")
                    "carol" "wonderland" eq_refl eq_refl eq_refl))))).
    intros u [<-|[<-|[]]]; repeat split; discriminate.
Defined.

(** C5 as stated fails. "111" is the phone of alice and the username of
    another user, a pair of rows [register] accepts. The query finds the
    user of that username first, in whichever order the two rows are
    stored, so alice cannot log in with "111" and her own password,
    although her phone is "111" and the password verifies against her
    hash. *)
Lemma login_shadowed_identifier :
  snd (register (platform := toy_platform) quiet store_alice None POST form_111)
  = store_alice_111
  /\ In alice (users store_alice_111)
  /\ phone alice = "111"
  /\ check_password (platform := toy_platform) alice "wonderland" = true
  /\ login (platform := toy_platform) store_alice_111 None POST
       (login_form "111" "wonderland")
     = (invalid_credentials, None)
  /\ login (platform := toy_platform) store_111_alice None POST
       (login_form "111" "wonderland")
     = (invalid_credentials, None).
Proof. repeat split; try reflexivity. left. reflexivity. Qed.

(** ** Messaging: the conversation query *)

Lemma between_sym (a b : Z) (m : ChatMessage) :
  between a b m = between b a m.
Proof. unfold between. apply orb_comm. Qed.

Lemma between_true (a b : Z) (m : ChatMessage) :
  between a b m = true
  <-> (from_user_id m = a /\ Sql.eq_int (to_user_id m) b = true)
      \/ (from_user_id m = b /\ Sql.eq_int (to_user_id m) a = true).
Proof.
  unfold between. rewrite orb_true_iff, !andb_true_iff, !Z.eqb_eq. tauto.
Qed.

Lemma insert_by_timestamp_perm (m : ChatMessage) (l : list ChatMessage) :
  Permutation (m :: l) (insert_by_timestamp m l).
Proof.
  induction l as [|h t IH]; simpl; [apply Permutation_refl|].
  destruct (timestamp m <=? timestamp h); [apply Permutation_refl|].
  eapply perm_trans; [apply perm_swap|]. apply perm_skip. exact IH.
Qed.

Lemma order_by_timestamp_perm (l : list ChatMessage) :
  Permutation l (order_by_timestamp l).
Proof.
  induction l as [|m l IH]; simpl; [apply perm_nil|].
  eapply perm_trans; [apply perm_skip; exact IH|].
  apply insert_by_timestamp_perm.
Qed.

Lemma insert_by_timestamp_sorted (m : ChatMessage) (l : list ChatMessage) :
  StronglySorted by_timestamp l ->
  StronglySorted by_timestamp (insert_by_timestamp m l).
Proof.
  induction l as [|h t IH]; simpl; intros Hs.
  - constructor; constructor.
  - destruct (timestamp m <=? timestamp h) eqn:E.
    + apply Z.leb_le in E. constructor; [exact Hs|].
      inversion Hs as [|? ? _ Hall]; subst. constructor; [exact E|].
      eapply Forall_impl; [|exact Hall].
      intros x Hx. unfold by_timestamp in *. lia.
    + apply Z.leb_gt in E. inversion Hs as [|? ? Hst Hall]; subst.
      constructor; [apply IH; exact Hst|].
      apply (Permutation_Forall (insert_by_timestamp_perm m t)).
      constructor; [unfold by_timestamp; lia | exact Hall].
Qed.

Lemma order_by_timestamp_sorted (l : list ChatMessage) :
  StronglySorted by_timestamp (order_by_timestamp l).
Proof.
  induction l as [|m l IH]; simpl; [constructor|].
  apply insert_by_timestamp_sorted. exact IH.
Qed.

Lemma get_conversation_swap (d : Store) (a b : Z) :
  get_conversation d a b = get_conversation d b a.
Proof.
  unfold get_conversation. f_equal. apply filter_ext.
  intros m. apply between_sym.
Qed.

(** C6. The conversation of A with B and that of B with A are the same
    sequence: exactly the stored messages sent by A to B or by B to A,
    each as often as it is stored, in ascending order of timestamp. For
    a row whose recipient is stored as an integer that is the row's
    sender and recipient being the two users, one each way; a row whose
    recipient is text or NULL is in no conversation. *)
Theorem get_conversation_symmetric (d : Store) (a b : Z) :
  get_conversation d a b = get_conversation d b a
  /\ StronglySorted by_timestamp (get_conversation d a b)
  /\ Permutation (get_conversation d a b)
                 (filter (between a b) (messages d))
  /\ (forall m, In m (get_conversation d a b)
                <-> In m (messages d)
                    /\ ((from_user_id m = a
                         /\ Sql.eq_int (to_user_id m) b = true)
                        \/ (from_user_id m = b
                            /\ Sql.eq_int (to_user_id m) a = true)))
  /\ (forall m r, to_user_id m = Sql.Int r ->
                  (In m (get_conversation d a b)
                   <-> In m (messages d)
                       /\ ((from_user_id m = a /\ r = b)
                           \/ (from_user_id m = b /\ r = a))))
  /\ (forall m, In m (get_conversation d a b) ->
                to_user_id m <> Sql.Null
                /\ forall t, to_user_id m <> Sql.Text t).
Proof.
  split; [apply get_conversation_swap|].
  assert (Hin : forall m, In m (get_conversation d a b)
                          <-> In m (messages d) /\ between a b m = true).
  { intros m. unfold get_conversation. rewrite <- filter_In. split.
    - apply Permutation_in, Permutation_sym, order_by_timestamp_perm.
    - apply Permutation_in, order_by_timestamp_perm. }
  split; [apply order_by_timestamp_sorted|].
  split; [apply Permutation_sym, order_by_timestamp_perm|].
  split; [|split].
  - intros m. rewrite <- between_true. apply Hin.
  - intros m r Hr. rewrite Hin, between_true, Hr. cbn [Sql.eq_int].
    rewrite !Z.eqb_eq. reflexivity.
  - intros m Hm. apply Hin in Hm as [_ Hm]. apply between_true in Hm.
    split; [|intros t]; intros E; rewrite E in Hm; cbn in Hm;
      destruct Hm as [[_ H]|[_ H]]; discriminate H.
Qed.

Lemma get_conversation_symmetric_witness :
  In (chat_row 2 2 1 10 "first") (get_conversation store_chat 1 2)
  /\ ~ In (chat_row 3 1 3 15 "elsewhere") (get_conversation store_chat 1 2).
Proof.
  destruct (get_conversation_symmetric store_chat 1 2)
    as (_ & _ & _ & _ & H & _).
  split.
  - apply (proj2 (H (chat_row 2 2 1 10 "first") 1 eq_refl)).
    split; [right; left; reflexivity | right; split; reflexivity].
  - intros Hin.
    apply (proj1 (H (chat_row 3 1 3 15 "elsewhere") 3 eq_refl)) in Hin
      as [_ [[_ E]|[E _]]]; discriminate E.
Defined.

(** The two views that run the query answer alike for the two users:
    what alice polls about the other user is what that user polls about
    alice, and each is in time order. *)
Lemma get_messages_symmetric {platform : Platform}
  (d : Store) (sa sb : Session) (ua ub : User) :
  current_user d sa = Some ua ->
  current_user d sb = Some ub ->
  get_messages d sa (user_id ub) = get_messages d sb (user_id ua).
Proof.
  intros Ha Hb. unfold get_messages, query_conversation.
  rewrite (login_required_user _ _ _ _ Ha), (login_required_user _ _ _ _ Hb).
  rewrite (get_conversation_swap d (user_id ua) (user_id ub)).
  rewrite (andb_comm (Sql.int64 (user_id ua))). reflexivity.
Qed.

Example get_conversation_store_chat :
  get_conversation store_chat 1 2
  = [chat_row 2 2 1 10 "first"; chat_row 4 1 2 20 "second";
     chat_row 1 1 2 30 "third"]
  /\ get_conversation store_chat 2 1 = get_conversation store_chat 1 2.
Proof. split; reflexivity. Qed.

(** ** The locale selector *)

Lemma consider_result (matchf : string -> string -> bool)
  (accepted : Werkzeug.Accept) (best : option string * Q * Z)
  (server_item : string) :
  fst (fst (Werkzeug.consider matchf accepted best server_item))
  = fst (fst best)
  \/ fst (fst (Werkzeug.consider matchf accepted best server_item))
     = Some server_item.
Proof.
  unfold Werkzeug.consider. destruct best as [[result bq] bs].
  destruct (Werkzeug.best_single_match matchf accepted server_item)
    as [[client quality]|]; [|left; reflexivity].
  destruct (Qle_bool quality 0 || Werkzeug.Qlt_bool quality bq);
    [left; reflexivity|].
  destruct (Werkzeug.Qlt_bool bq quality || (bs <? Werkzeug.specificity client));
    [right | left]; reflexivity.
Qed.

Lemma fold_consider_result (matchf : string -> string -> bool)
  (accepted : Werkzeug.Accept) (matches : list string)
  (best : option string * Q * Z) :
  let r := fold_left (Werkzeug.consider matchf accepted) matches best in
  fst (fst r) = fst (fst best)
  \/ exists m, In m matches /\ fst (fst r) = Some m.
Proof.
  revert best. induction matches as [|m ms IH]; intros best; simpl;
    [left; reflexivity|].
  destruct (IH (Werkzeug.consider matchf accepted best m)) as [H|[x [Hx H]]].
  - destruct (consider_result matchf accepted best m) as [E|E].
    + left. rewrite H. exact E.
    + right. exists m. split; [left; reflexivity|]. rewrite H. exact E.
  - right. exists x. split; [right; exact Hx | exact H].
Qed.

(** [Accept.best_match] answers with the default or with one of the
    offered values. *)
Lemma accept_best_match_range (matchf : string -> string -> bool)
  (accepted : Werkzeug.Accept) (matches : list string)
  (default : option string) :
  Werkzeug.accept_best_match matchf accepted matches default = default
  \/ exists m, In m matches
               /\ Werkzeug.accept_best_match matchf accepted matches default
                  = Some m.
Proof.
  unfold Werkzeug.accept_best_match.
  apply (fold_consider_result matchf accepted matches (default, (-1)%Q, -1)).
Qed.

Lemma accept_best_match_some (matchf : string -> string -> bool)
  (accepted : Werkzeug.Accept) (matches : list string) (r : string) :
  Werkzeug.accept_best_match matchf accepted matches None = Some r ->
  In r matches.
Proof.
  intros H.
  destruct (accept_best_match_range matchf accepted matches None)
    as [E|[m [Hm E]]]; rewrite H in E; [discriminate|].
  injection E as ->. exact Hm.
Qed.

Lemma best_match_range (accepted : Werkzeug.Accept) (matches : list string)
  (default : option string) :
  Werkzeug.best_match accepted matches default = default
  \/ exists m, In m matches
               /\ Werkzeug.best_match accepted matches default = Some m.
Proof.
  unfold Werkzeug.best_match.
  destruct (Werkzeug.accept_best_match Werkzeug.lang_matches accepted
              matches None) as [r|] eqn:E1.
  { right. exists r. split; [|reflexivity].
    exact (accept_best_match_some _ _ _ _ E1). }
  destruct (Werkzeug.accept_best_match Werkzeug.value_matches _ matches None)
    as [r|] eqn:E2.
  { right. exists r. split; [|reflexivity].
    exact (accept_best_match_some _ _ _ _ E2). }
  destruct (Werkzeug.accept_best_match Werkzeug.lang_matches accepted
              (map Werkzeug.primary matches) None) as [r|];
    [|left; reflexivity].
  destruct (find (fun item => String.prefix r item) matches) as [item|] eqn:F;
    [|left; reflexivity].
  right. exists item. split; [|reflexivity].
  apply find_some in F. apply F.
Qed.

(** C9, as the code has it. The locale selector is a function of the
    accepted languages alone and answers 'en', 'hi' or nothing at all
    (None, the negotiation's default, which the selector does not
    replace); it never answers with another tag. *)
Theorem get_locale_range (accept_languages : Werkzeug.Accept) :
  get_locale accept_languages = None
  \/ get_locale accept_languages = Some "en"
  \/ get_locale accept_languages = Some "hi".
Proof.
  unfold get_locale.
  destruct (best_match_range accept_languages ["en"; "hi"] None)
    as [H|[m [[<-|[<-|[]]] H]]]; auto.
Qed.

(** C9 as stated fails: a request that accepts no language, or only
    French, gets no tag. *)
Lemma get_locale_no_match :
  get_locale [] = None
  /\ get_locale [("fr", 1%Q)] = None
  /\ ~ (forall accept_languages,
           get_locale accept_languages = Some "en"
           \/ get_locale accept_languages = Some "hi").
Proof.
  split; [reflexivity|]. split; [reflexivity|].
  intros H. destruct (H []) as [E|E]; discriminate E.
Qed.

Example get_locale_examples :
  get_locale [("hi", 1%Q); ("en", (8 # 10)%Q)] = Some "hi"
  /\ get_locale [("en-US", 1%Q)] = Some "en"
  /\ get_locale [("*", (1 # 2)%Q)] = Some "en"
  /\ get_locale_from_request [("HI", 1%Q)] = Some "hi".
Proof. repeat split; reflexivity. Qed.

(** ** Listing an item *)

Lemma insert_item_stored (d : Store) (it : Item) (x : spec_float) :
  Sql.stored_real (price it) = Some x ->
  insert_item d it
  = Some {| users := users d; items := (items d ++ [with_price it x])%list;
            messages := messages d; uploads := uploads d |}.
Proof. unfold insert_item. intros ->. reflexivity. Qed.




(** ** The sold flag over the whole system *)

Lemma mark_sold_sold (it : Item) : is_sold it = true -> mark_sold it = it.
Proof. destruct it; simpl; intros ->; reflexivity. Qed.

Lemma update_sold_noop (d : Store) (id : Z) :
  (forall it, In it (items d) -> item_id it = id -> is_sold it = true) ->
  update_sold d id = d.
Proof.
  destruct d as [us its ms ups]; unfold update_sold; simpl; intros H.
  f_equal. induction its as [|it l IH]; simpl; [reflexivity|].
  rewrite IH by (intros x Hx; apply H; right; exact Hx). f_equal.
  destruct (item_id it =? id) eqn:E; [|reflexivity].
  apply mark_sold_sold, H; [left; reflexivity | apply Z.eqb_eq; exact E].
Qed.

Lemma unique_key_row (l : list Item) (x y : Item) :
  NoDup (map item_id l) -> In x l -> In y l -> item_id x = item_id y -> x = y.
Proof.
  induction l as [|a l IH]; simpl; intros Hnd Hx Hy E; [contradiction|].
  inversion Hnd as [|? ? Hnotin Hnd']; subst.
  destruct Hx as [->|Hx], Hy as [->|Hy]; auto.
  - exfalso. apply Hnotin. rewrite E. apply in_map. exact Hy.
  - exfalso. apply Hnotin. rewrite <- E. apply in_map. exact Hx.
Qed.

Lemma next_id_above (ids : list Z) (k : Z) : In k ids -> k < next_id ids.
Proof.
  unfold next_id. induction ids as [|a l IH]; cbn [fold_right In];
    [contradiction|].
  intros [->|H]; [lia|]. specialize (IH H). lia.
Qed.

Lemma next_id_fresh (ids : list Z) : ~ In (next_id ids) ids.
Proof. intros H. apply next_id_above in H. lia. Qed.

Lemma NoDup_snoc {A : Type} (l : list A) (x : A) :
  NoDup l -> ~ In x l -> NoDup (l ++ [x]).
Proof.
  induction l as [|a l IH]; simpl; intros Hnd Hx.
  - constructor; [intros [] | constructor].
  - inversion Hnd as [|? ? Ha Hl]; subst. constructor.
    + rewrite in_app_iff. simpl. intros [H|[H|[]]]; [auto|].
      apply Hx. left. symmetry. exact H.
    + apply IH; [exact Hl|]. intros H. apply Hx. right. exact H.
Qed.

Lemma update_sold_ids (d : Store) (id : Z) :
  map item_id (items (update_sold d id)) = map item_id (items d).
Proof.
  unfold update_sold; simpl. rewrite map_map. apply map_ext.
  intros it. destruct (item_id it =? id); reflexivity.
Qed.

Section SoldFlag.

Context {platform : Platform}.

Lemma register_items (amb : Ambient) (d : Store) (s : Session) (m : method)
  (form : Form) : items (snd (register amb d s m form)) = items d.
Proof.
  unfold register. destruct (current_user d s); [reflexivity|].
  destruct m; [reflexivity|].
  destruct (Py.assoc "username" form); [|reflexivity].
  destruct (Py.assoc "email" form); [|reflexivity].
  destruct (Py.assoc "phone" form); [|reflexivity].
  destruct (Py.assoc "password" form); [|reflexivity].
  destruct (find _ _); [reflexivity|].
  unfold insert_user. destruct (existsb _ _); reflexivity.
Qed.

(** A listing leaves the stored items in place and may append one, under
    a key no stored item has. *)
Lemma sell_item_items (d : Store) (s : Session) (m : method) (form : Form)
  (file : option FileStorage) :
  items (snd (sell_item d s m form file)) = items d
  \/ exists it, items (snd (sell_item d s m form file)) = (items d ++ [it])%list
                /\ item_id it = next_id (map item_id (items d)).
Proof.
  unfold sell_item, login_required.
  destruct (current_user d s) as [user|]; [|left; reflexivity].
  destruct m; [left; reflexivity|].
  destruct (Py.assoc "title" form) as [t|]; [|left; reflexivity].
  destruct (Py.assoc "description" form) as [ds|]; [|left; reflexivity].
  destruct (Py.assoc "price" form) as [pt|]; [|left; reflexivity].
  destruct (Py.float pt) as [x|]; [|left; reflexivity].
  destruct (Py.assoc "location" form) as [loc|]; [|left; reflexivity].
  match goal with
  | |- context [let '(name, d1) := ?e in _] =>
      assert (Hd1 : items (snd e) = items d)
        by (destruct file as [f|]; [|reflexivity];
            destruct (negb _ && _); reflexivity);
      destruct e as [name d1]
  end.
  cbn [snd] in Hd1. unfold insert_item. cbn [price].
  destruct x; cbn [snd items]; rewrite ?Hd1; auto;
    right; eexists; split; reflexivity.
Qed.

Lemma login_required_store (d : Store) (s : Session)
  (view : User -> Response * Store) :
  (forall user, snd (view user) = d) -> snd (login_required d s view) = d.
Proof.
  intros H. unfold login_required.
  destruct (current_user d s); [apply H | reflexivity].
Qed.

(** The views that only read: whatever they answer, the store they
    return is the one they were given. *)
Lemma reading_views_store (d : Store) (s : Session) (id : Z) :
  snd (my_items d s) = d /\ snd (buy_item d s id) = d
  /\ snd (chat_with_seller d s id) = d
  /\ snd (send_message_unparsable d s) = d.
Proof.
  unfold my_items, buy_item, chat_with_seller, send_message_unparsable.
  repeat split; apply login_required_store; intros user; try reflexivity.
  - destruct (get_or_404 d id); reflexivity.
  - destruct (get_or_404 d id) as [|item]; [reflexivity|].
    destruct (query_conversation d (user_id user) (seller_id item));
      reflexivity.
Qed.

Lemma get_messages_store (d : Store) (s : Session) (to : Z) :
  snd (get_messages d s to) = d.
Proof.
  unfold get_messages. apply login_required_store. intros user.
  destruct (query_conversation d (user_id user) to) as [msgs|];
    [|reflexivity].
  destruct (message_list d msgs); reflexivity.
Qed.

Lemma send_message_items (amb : Ambient) (d : Store) (s : Session)
  (json : option Json.value) :
  items (snd (send_message amb d s json)) = items d.
Proof.
  unfold send_message, login_required.
  destruct (current_user d s); [|reflexivity].
  destruct json as [[| | | | | |data]|]; try reflexivity.
  destruct (Json.truthy _ && Json.truthy _); [|reflexivity].
  destruct (Sql.bind _); [|reflexivity].
  destruct (Sql.bind _); [|reflexivity].
  destruct (insert_message d _) as [d'|] eqn:E; [|reflexivity].
  apply insert_message_some in E. apply E.
Qed.

Lemma create_tables_items (amb : Ambient) (d d' : Store) :
  create_tables amb d = Some d' -> items d' = items d.
Proof.
  unfold create_tables. destruct (find _ _); [intros [= <-]; reflexivity|].
  unfold insert_user. destruct (existsb _ _); [discriminate|].
  intros [= <-]. reflexivity.
Qed.

(** Every request but the payment callback leaves the stored items in
    place, appending at most one. *)
Lemma handle_items (amb : Ambient) (d : Store) (s : Session) (req : Request) :
  (forall form, req <> ReqPaytmRedirect form) ->
  items (snd (fst (handle amb d s req))) = items d
  \/ exists it, items (snd (fst (handle amb d s req))) = (items d ++ [it])%list
                /\ item_id it = next_id (map item_id (items d)).
Proof.
  intros Hreq.
  destruct req as [ | m form | m form | | m form file | id | | id | id
                  | json | | to | | order_id txn_amount | form ];
    cbn [handle fst snd]; try (left; reflexivity).
  - destruct (login d s m form). left. reflexivity.
  - left. apply register_items.
  - destruct (logout d s). left. reflexivity.
  - apply sell_item_items.
  - left. rewrite (proj1 (reading_views_store d s 0)). reflexivity.
  - left. rewrite (proj1 (proj2 (reading_views_store d s id))). reflexivity.
  - left. rewrite (proj1 (proj2 (proj2 (reading_views_store d s id)))).
    reflexivity.
  - left. apply send_message_items.
  - left. rewrite (proj2 (proj2 (proj2 (reading_views_store d s 0)))).
    reflexivity.
  - left. rewrite get_messages_store. reflexivity.
  - exfalso. exact (Hreq form eq_refl).
Qed.

Lemma handle_row_kept (amb : Ambient) (d : Store) (s : Session) (req : Request)
  (i : nat) (it : Item) :
  (forall form, req <> ReqPaytmRedirect form) ->
  nth_error (items d) i = Some it ->
  nth_error (items (snd (fst (handle amb d s req)))) i = Some it.
Proof.
  intros Hreq Hi.
  destruct (handle_items amb d s req Hreq) as [->|[x [-> _]]]; [exact Hi|].
  rewrite nth_error_app1; [exact Hi|].
  apply nth_error_Some. congruence.
Qed.

Lemma update_sold_row (d : Store) (id : Z) (i : nat) (it : Item) :
  nth_error (items d) i = Some it ->
  exists it', nth_error (items (update_sold d id)) i = Some it'
              /\ item_id it' = item_id it
              /\ (is_sold it = true -> is_sold it' = true).
Proof.
  intros Hi. unfold update_sold; cbn [items].
  rewrite nth_error_map, Hi. cbn [option_map].
  eexists. split; [reflexivity|].
  destruct (item_id it =? id); simpl; auto.
Qed.

Lemma step_row (d d' : Store) (i : nat) (it : Item) :
  step d d' ->
  nth_error (items d) i = Some it ->
  exists it', nth_error (items d') i = Some it'
              /\ item_id it' = item_id it
              /\ (is_sold it = true -> is_sold it' = true).
Proof.
  intros Hstep Hi. destruct Hstep as [amb d s req | amb d d' Hct].
  - destruct req;
      try (exists it; split; [apply handle_row_kept; [discriminate | exact Hi]
                             | auto]).
    cbn [handle fst snd].
    destruct (paytm_redirect_store d form) as [->|[id [item [_ ->]]]].
    + exists it. auto.
    + apply update_sold_row. exact Hi.
  - rewrite (create_tables_items _ _ _ Hct). exists it. auto.
Qed.

(** The item keys stay pairwise distinct under every operation. *)
Lemma step_item_ids_unique (d d' : Store) :
  step d d' -> item_ids_unique d -> item_ids_unique d'.
Proof.
  unfold item_ids_unique. intros Hstep Hnd.
  destruct Hstep as [amb d s req | amb d d' Hct].
  - assert (Hother : (forall form, req <> ReqPaytmRedirect form) ->
                     NoDup (map item_id (items (snd (fst (handle amb d s req)))))).
    { intros Hreq.
      destruct (handle_items amb d s req Hreq) as [->|[x [-> Hx]]];
        [exact Hnd|].
      rewrite map_app. cbn [map].
      apply NoDup_snoc; [exact Hnd|].
      rewrite Hx. apply next_id_fresh. }
    destruct req; try (apply Hother; discriminate).
    cbn [handle fst snd].
    destruct (paytm_redirect_store d form) as [->|[id [item [_ ->]]]];
      [exact Hnd|].
    rewrite update_sold_ids. exact Hnd.
  - rewrite (create_tables_items _ _ _ Hct). exact Hnd.
Qed.

Lemma run_item_ids_unique (d d' : Store) :
  run d d' -> item_ids_unique d -> item_ids_unique d'.
Proof.
  induction 1 as [|d1 d2 d3 Hstep _ IH]; [auto|].
  intros H. apply IH. exact (step_item_ids_unique _ _ Hstep H).
Qed.

End SoldFlag.

(** C7. The sold flag goes one way. Over any sequence of operations a
    stored item stays where it is under its key, and once sold it stays
    sold; every operation other than the payment callback leaves every
    stored item exactly as it was (the start-up routine too); and a
    callback for an item that is already sold leaves the store as it
    was. *)
Theorem is_sold_one_way {platform : Platform} :
  (forall d d' i it,
      run d d' ->
      nth_error (items d) i = Some it ->
      exists it', nth_error (items d') i = Some it'
                  /\ item_id it' = item_id it
                  /\ (is_sold it = true -> is_sold it' = true))
  /\ (forall amb d s req i it,
         (forall form, req <> ReqPaytmRedirect form) ->
         nth_error (items d) i = Some it ->
         nth_error (items (snd (fst (handle amb d s req)))) i = Some it)
  /\ (forall amb d d', create_tables amb d = Some d' -> items d' = items d)
  /\ (forall d form order_id seg id item,
         item_ids_unique d ->
         Py.assoc "STATUS" form = Some "TXN_SUCCESS" ->
         Py.assoc "ORDERID" form = Some order_id ->
         last_segment "_" order_id seg ->
         Py.int seg = Some id ->
         get_item d id = Some item ->
         is_sold item = true ->
         paytm_redirect d form = (payment_done, d)).
Proof.
  split; [|split; [|split]].
  - intros d d' i it Hrun. revert i it.
    induction Hrun as [d|d1 d2 d3 Hstep _ IH]; intros i it Hi.
    + exists it. auto.
    + destruct (step_row _ _ i it Hstep Hi) as (it2 & H2 & Hid2 & Hs2).
      destruct (IH i it2 H2) as (it3 & H3 & Hid3 & Hs3).
      exists it3. split; [exact H3|]. split; [congruence | auto].
  - intros amb d s req i it. apply handle_row_kept.
  - intros amb d d'. apply create_tables_items.
  - intros d form order_id seg id item Huniq Hst Hord Hseg Hint Hget Hsold.
    rewrite (paytm_redirect_success d form order_id seg id item)
      by assumption.
    unfold payment_done. f_equal. apply update_sold_noop.
    intros it Hin Hid.
    assert (Hitem : In item (items d) /\ item_id item = id)
      by (apply (get_item_in _ _ _ Hget)).
    destruct Hitem as [Hin' Hid'].
    rewrite (unique_key_row (items d) it item Huniq Hin Hin'); [exact Hsold|].
    congruence.
Qed.

Lemma is_sold_one_way_witness :
  (exists it',
      nth_error
        (items (snd (fst (handle (platform := toy_platform) quiet
                            shop_42_sold (Some 1)
                            (ReqSell POST (sell_form "-5") None))))) 0
      = Some it'
      /\ item_id it' = 42 /\ is_sold it' = true)
  /\ paytm_redirect shop_42_sold callback_success
     = (payment_done, shop_42_sold).
Proof.
  split.
  - destruct (proj1 (is_sold_one_way (platform := toy_platform))
                shop_42_sold _ 0%nat (mark_sold item_42)
                (run_step _ _ _
                   (step_request quiet shop_42_sold (Some 1)
                      (ReqSell POST (sell_form "-5") None))
                   (run_nil _))
                eq_refl) as (it' & H & Hid & Hsold).
    exists it'. split; [exact H|]. split; [exact Hid | exact (Hsold eq_refl)].
  - apply (proj2 (proj2 (proj2 (is_sold_one_way (platform := toy_platform))))
             shop_42_sold callback_success "order_42" "42" 42
             (mark_sold item_42)); try reflexivity.
    + repeat constructor. intros [].
    + split; [reflexivity | right; exists "order"; reflexivity].
Defined.

(** The callback run twice on the scenario's store: the first marks item
    42 sold, the second changes nothing. *)
Example paytm_redirect_twice :
  snd (paytm_redirect shop_42 callback_success) = shop_42_sold
  /\ snd (paytm_redirect shop_42_sold callback_success) = shop_42_sold.
Proof. split; reflexivity. Qed.

(** Every store the system reaches from the empty one has distinct item
    keys. *)
Lemma reachable_item_ids_unique {platform : Platform} (d : Store) :
  run empty_store d -> item_ids_unique d.
Proof.
  intros H. apply (run_item_ids_unique _ _ H). constructor.
Qed.

(** ** The checksum bridge *)

(** The two wrappers hand their arguments to the SDK, [verify_checksum]
    with the key and the checksum in the SDK's order. Whatever round trip
    the SDK has, the wrappers have. *)
Lemma verify_checksum_of_sdk {platform : Platform}
  (params : list (string * option string)) (key : option string) :
  (forall c, sdk_generate_checksum params key = Some c ->
             sdk_verify_checksum params key c = Some true) ->
  forall c, generate_checksum params key = Some c ->
            verify_checksum params c key = Some true.
Proof. intros H c Hc. apply H. exact Hc. Qed.

(** * Further properties of the handlers *)

(** ** What a request writes *)

Section Writes.

Context {platform : Platform}.

Lemma current_user_stored (d : Store) (s : Session) (user : User) :
  current_user d s = Some user ->
  get_user d (user_id user) = Some user /\ In user (users d)
  /\ s = Some (user_id user).
Proof.
  destruct s as [id|]; [|discriminate]. unfold current_user, load_user.
  intros H. pose proof H as H'. unfold get_user in H'.
  apply find_some in H' as [Hin Hid]. apply Z.eqb_eq in Hid.
  rewrite Hid. auto.
Qed.

Lemma register_write (amb : Ambient) (d : Store) (s : Session) (m : method)
  (form : Form) :
  snd (register amb d s m form) = d
  \/ write d (snd (register amb d s m form)).
Proof.
  unfold register. destruct (current_user d s); [left; reflexivity|].
  destruct m; [left; reflexivity|].
  destruct (Py.assoc "username" form) as [name|]; [|left; reflexivity].
  destruct (Py.assoc "email" form) as [mail|]; [|left; reflexivity].
  destruct (Py.assoc "phone" form) as [tel|]; [|left; reflexivity].
  destruct (Py.assoc "password" form) as [pw|]; [|left; reflexivity].
  destruct (find _ _); [left; reflexivity|].
  destruct (insert_user d _) as [d'|] eqn:E; [|left; reflexivity].
  right. cbn [snd]. eapply write_user; [exact E | reflexivity | discriminate].
Qed.

Lemma create_tables_write (amb : Ambient) (d d' : Store) :
  create_tables amb d = Some d' -> d' = d \/ write d d'.
Proof.
  unfold create_tables. destruct (find _ _); [intros [= <-]; auto|].
  intros E. right. eapply write_user; [exact E | reflexivity | reflexivity].
Qed.

Lemma send_message_write (amb : Ambient) (d : Store) (s : Session)
  (json : option Json.value) :
  snd (send_message amb d s json) = d
  \/ write d (snd (send_message amb d s json)).
Proof.
  unfold send_message, login_required.
  destruct (current_user d s) as [user|] eqn:Hu; [|left; reflexivity].
  destruct json as [[| | | | | |data]|]; try (left; reflexivity).
  destruct (Json.truthy _ && Json.truthy _); [|left; reflexivity].
  destruct (Sql.bind (Json.get data "to_user_id")); [|left; reflexivity].
  destruct (Sql.bind (Json.get data "message")); [|left; reflexivity].
  destruct (insert_message d _) as [d'|] eqn:E; [|left; reflexivity].
  right. cbn [snd]. eapply write_message; [exact E | reflexivity |].
  cbn [from_user_id]. apply (current_user_stored _ _ _ Hu).
Qed.

Lemma sell_item_write (d : Store) (s : Session) (m : method) (form : Form)
  (file : option FileStorage) :
  snd (sell_item d s m form file) = d
  \/ write d (snd (sell_item d s m form file))
  \/ exists d1, write d d1 /\ write d1 (snd (sell_item d s m form file)).
Proof.
  unfold sell_item, login_required.
  destruct (current_user d s) as [user|] eqn:Hu; [|left; reflexivity].
  destruct m; [left; reflexivity|].
  destruct (Py.assoc "title" form) as [t|]; [|left; reflexivity].
  destruct (Py.assoc "description" form) as [ds|]; [|left; reflexivity].
  destruct (Py.assoc "price" form) as [pt|]; [|left; reflexivity].
  destruct (Py.float pt) as [x|]; [|left; reflexivity].
  destruct (Py.assoc "location" form) as [loc|]; [|left; reflexivity].
  apply current_user_stored in Hu as [Hget _].
  destruct file as [f|].
  - destruct (negb _ && _).
    + destruct (insert_item _ _) as [d2|] eqn:E; cbn [snd].
      * right; right. eexists. split; [apply write_upload|].
        eapply write_item; [exact E | reflexivity | reflexivity | exact Hget].
      * right; left. apply write_upload.
    + destruct (insert_item _ _) as [d2|] eqn:E; cbn [snd]; [|left; reflexivity].
      right; left.
      eapply write_item; [exact E | reflexivity | reflexivity | exact Hget].
  - destruct (insert_item _ _) as [d2|] eqn:E; cbn [snd]; [|left; reflexivity].
    right; left.
    eapply write_item; [exact E | reflexivity | reflexivity | exact Hget].
Qed.

(** An operation leaves the store alone, or makes one write, or two (a
    listing that saves its image and inserts its item). *)
Lemma step_writes (d d' : Store) :
  step d d' ->
  d' = d \/ write d d' \/ exists d1, write d d1 /\ write d1 d'.
Proof.
  intros [amb d0 s req | amb d0 d1 Hct].
  - destruct req as [ | m form | m form | | m form file | id | | id | id
                    | json | | to | | order_id txn_amount | form ];
      cbn [handle fst snd]; try (left; reflexivity).
    + destruct (login d0 s m form). left. reflexivity.
    + destruct (register_write amb d0 s m form); auto.
    + destruct (logout d0 s). left. reflexivity.
    + apply sell_item_write.
    + left. apply (reading_views_store d0 s 0).
    + left. apply (reading_views_store d0 s id).
    + left. apply (reading_views_store d0 s id).
    + destruct (send_message_write amb d0 s json); auto.
    + left. apply (reading_views_store d0 s 0).
    + left. apply get_messages_store.
    + destruct (paytm_redirect_store d0 form) as [->|[id [item [_ ->]]]];
        [left; reflexivity|].
      right; left. apply write_sold.
  - destruct (create_tables_write _ _ _ Hct); auto.
Qed.

(** A property every write keeps is kept by every run of operations. *)
Lemma run_invariant (P : Store -> Prop) :
  (forall d d', write d d' -> P d -> P d') ->
  forall d d', run d d' -> P d -> P d'.
Proof.
  intros Hw d d' Hrun. induction Hrun as [d|d1 d2 d3 Hstep _ IH]; [auto|].
  intros H1. apply IH.
  destruct (step_writes _ _ Hstep) as [->|[W|[dm [W1 W2]]]]; eauto.
Qed.

End Writes.

(** ** Invariants of the store *)

Lemma insert_user_some (d d' : Store) (u : User) :
  insert_user d u = Some d' ->
  users d' = (users d ++ [u])%list /\ items d' = items d
  /\ messages d' = messages d /\ uploads d' = uploads d
  /\ forall v, In v (users d) ->
               username v <> username u /\ email v <> email u
               /\ phone v <> phone u.
Proof.
  unfold insert_user.
  destruct (existsb _ (users d)) eqn:E; [discriminate|].
  intros [= <-]. cbn. repeat (split; [reflexivity|]).
  intros v Hv.
  assert (C : collides (username u) (email u) (phone u) v = false).
  { destruct (collides _ _ _ v) eqn:C; [|reflexivity].
    assert (existsb (collides (username u) (email u) (phone u)) (users d)
            = true) by (apply existsb_exists; eauto).
    congruence. }
  repeat split; intros Heq;
    assert (collides (username u) (email u) (phone u) v = true)
      by (apply collides_true; auto); congruence.
Qed.

Lemma insert_item_some (d d' : Store) (it : Item) :
  insert_item d it = Some d' ->
  exists x,
    items d' = (items d ++ [with_price it x])%list /\ users d' = users d
    /\ messages d' = messages d /\ uploads d' = uploads d.
Proof.
  unfold insert_item.
  destruct (Sql.stored_real (price it)) as [x|]; [|discriminate].
  intros [= <-]. exists x. auto.
Qed.

Lemma get_user_app (d : Store) (l : list User) (id : Z) (u : User) :
  find (fun v => user_id v =? id) (users d) = Some u ->
  find (fun v => user_id v =? id) (users d ++ l) = Some u.
Proof.
  induction (users d) as [|a r IH]; simpl; [discriminate|].
  destruct (user_id a =? id); auto.
Qed.

(** What a write does to each table. *)
Lemma write_tables (d d' : Store) :
  write d d' ->
  extends (users d) (users d')
  /\ extends (messages d) (messages d')
  /\ extends (map item_id (items d)) (map item_id (items d')).
Proof.
  intros W. unfold extends. destruct W as
    [d d' u E _ _ | d d' it u E _ _ _ | d d' m u E _ _ | d id | d name f].
  - apply insert_user_some in E as (-> & -> & -> & _).
    repeat split; [eexists; reflexivity | |]; exists []; rewrite app_nil_r; reflexivity.
  - apply insert_item_some in E as (x & -> & -> & -> & _).
    repeat split; [| |rewrite map_app; eexists; reflexivity];
      exists []; rewrite app_nil_r; reflexivity.
  - apply insert_message_some in E as (-> & -> & -> & _).
    repeat split; [|eexists; reflexivity|];
      exists []; rewrite app_nil_r; reflexivity.
  - rewrite update_sold_ids. cbn.
    repeat split; exists []; rewrite app_nil_r; reflexivity.
  - cbn. repeat split; exists []; rewrite app_nil_r; reflexivity.
Qed.

Lemma extends_trans {A : Type} (l1 l2 l3 : list A) :
  extends l1 l2 -> extends l2 l3 -> extends l1 l3.
Proof.
  intros [a ->] [b ->]. exists (a ++ b)%list. rewrite app_assoc. reflexivity.
Qed.

Lemma write_get_user (d d' : Store) (id : Z) (u : User) :
  write d d' -> get_user d id = Some u -> get_user d' id = Some u.
Proof.
  intros W. destruct (write_tables _ _ W) as [[added E] _].
  unfold get_user. rewrite E. apply get_user_app.
Qed.

Lemma NoDup_map_snoc {A B : Type} (f : A -> B) (l : list A) (x : A) :
  NoDup (map f l) -> (forall y, In y l -> f y <> f x) ->
  NoDup (map f (l ++ [x])).
Proof.
  intros Hnd Hx. rewrite map_app. cbn [map]. apply NoDup_snoc; [exact Hnd|].
  intros Hin. apply in_map_iff in Hin as [y [Hy Hin]].
  exact (Hx y Hin Hy).
Qed.

Lemma write_users_unique (d d' : Store) :
  write d d' -> users_unique d -> users_unique d'.
Proof.
  intros W (Hid & Hn & He & Hp). unfold users_unique.
  destruct W as
    [d d' u E Hkey _ | d d' it u E _ _ _ | d d' m u E _ _ | d id | d name f].
  - apply insert_user_some in E as (-> & _ & _ & _ & Hfresh).
    repeat split; apply NoDup_map_snoc; try assumption;
      intros y Hy; try (apply (Hfresh y Hy)).
    rewrite Hkey. intros Heq.
    apply (next_id_fresh (map user_id (users d))). rewrite <- Heq.
    apply in_map. exact Hy.
  - apply insert_item_some in E as (x & _ & -> & _). auto.
  - apply insert_message_some in E as (_ & -> & _). auto.
  - cbn. auto.
  - cbn. auto.
Qed.

Lemma write_only_admin (d d' : Store) :
  write d d' -> only_admin d -> only_admin d'.
Proof.
  intros W H. unfold only_admin.
  destruct W as
    [d d' u E _ Hadm | d d' it u E _ _ _ | d d' m u E _ _ | d id | d name f].
  - apply insert_user_some in E as (-> & _).
    intros v Hv. apply in_app_iff in Hv as [Hv|[<-|[]]]; [apply H; exact Hv|].
    exact Hadm.
  - apply insert_item_some in E as (x & _ & -> & _). exact H.
  - apply insert_message_some in E as (_ & -> & _). exact H.
  - exact H.
  - exact H.
Qed.

Lemma write_references (d d' : Store) :
  write d d' ->
  senders_stored d /\ sellers_stored d ->
  senders_stored d' /\ sellers_stored d'.
Proof.
  intros W [Hm Hi].
  assert (Hget : forall id u, get_user d id = Some u ->
                              get_user d' id = Some u)
    by (intros; eapply write_get_user; eauto).
  unfold senders_stored, sellers_stored. split.
  - intros m Hin.
    assert (Hold : In m (messages d) -> exists u, get_user d' (from_user_id m) = Some u).
    { intros H. destruct (Hm m H) as [u Hu]. exists u. apply Hget; auto. }
    destruct W as
      [d d' u E _ _ | d d' it u E _ _ _ | d d' m0 u E _ Hs | d id | d name f];
      try (apply Hold; exact Hin).
    + apply insert_user_some in E as (_ & _ & Em & _). apply Hold. congruence.
    + apply insert_item_some in E as (x & _ & _ & Em & _). apply Hold.
      congruence.
    + pose proof E as E'. apply insert_message_some in E' as (Em & _).
      rewrite Em in Hin. apply in_app_iff in Hin as [Hin|[<-|[]]];
        [apply Hold; exact Hin|].
      exists u. apply Hget. exact Hs.
  - intros it Hin.
    assert (Hold : In it (items d) -> exists u, get_user d' (seller_id it) = Some u).
    { intros H. destruct (Hi it H) as [u Hu]. exists u. apply Hget; auto. }
    destruct W as
      [d d' u E _ _ | d d' it0 u E _ _ Hs | d d' m0 u E _ _ | d id | d name f];
      try (apply Hold; exact Hin).
    + apply insert_user_some in E as (_ & Ei & _). apply Hold. congruence.
    + pose proof E as E'. apply insert_item_some in E' as (x & Ei & _).
      rewrite Ei in Hin. apply in_app_iff in Hin as [Hin|[<-|[]]];
        [apply Hold; exact Hin|].
      exists u. apply Hget. exact Hs.
    + apply insert_message_some in E as (_ & _ & Ei & _). apply Hold. congruence.
    + cbn [update_sold items] in Hin. apply in_map_iff in Hin as [x [<- Hx]].
      destruct (Hi x Hx) as [u Hu]. exists u.
      destruct (item_id x =? id); exact Hu.
Qed.

Lemma run_request {platform : Platform} (amb : Ambient) (d : Store)
  (s : Session) (req : Request) :
  run d (snd (fst (handle amb d s req))).
Proof. eapply run_step; [apply step_request | apply run_nil]. Qed.

(** No operation deletes, rewrites or reorders a user or a message, and
    no operation removes an item or changes its key: over any run the
    user table and the message table only grow at the end, and so does
    the column of item keys. *)
Theorem run_append_only {platform : Platform} (d d' : Store) :
  run d d' ->
  extends (users d) (users d')
  /\ extends (messages d) (messages d')
  /\ extends (map item_id (items d)) (map item_id (items d')).
Proof.
  intros Hrun.
  apply (run_invariant
           (fun x => extends (users d) (users x)
                     /\ extends (messages d) (messages x)
                     /\ extends (map item_id (items d)) (map item_id (items x))))
    with (d := d); [|exact Hrun|].
  - intros x y W (Hu & Hm & Hi).
    destruct (write_tables _ _ W) as (Wu & Wm & Wi).
    repeat split; eapply extends_trans; eauto.
  - repeat split; exists []; rewrite app_nil_r; reflexivity.
Qed.

Lemma run_append_only_witness :
  extends (users store_alice)
    (users (snd (fst (handle (platform := toy_platform) quiet store_alice
                        None (ReqRegister POST form_111))))).
Proof.
  apply (run_append_only (platform := toy_platform) store_alice _
           (run_request quiet store_alice None (ReqRegister POST form_111))).
Defined.

(** Usernames, emails, phone numbers and user keys stay pairwise
    distinct: a store in which they are keeps them so over any run. *)
Theorem run_users_unique {platform : Platform} (d d' : Store) :
  run d d' -> users_unique d -> users_unique d'.
Proof. apply run_invariant. exact write_users_unique. Qed.

Lemma run_users_unique_witness :
  users_unique (snd (fst (handle (platform := toy_platform) quiet store_alice
                            None (ReqRegister POST form_111)))).
Proof.
  apply (run_users_unique (platform := toy_platform) store_alice _
           (run_request quiet store_alice None (ReqRegister POST form_111))).
  repeat split; repeat constructor; intros [].
Defined.

(** No request makes an administrator: in a store where the only
    administrators are called "admin", that stays so over any run
    (registration always stores is_admin = false, and the start-up
    routine creates the one account "admin"). *)
Theorem run_only_admin {platform : Platform} (d d' : Store) :
  run d d' -> only_admin d -> only_admin d'.
Proof. apply run_invariant. exact write_only_admin. Qed.

Lemma run_only_admin_witness :
  only_admin (snd (fst (handle (platform := toy_platform) quiet store_alice
                          None (ReqRegister POST form_111)))).
Proof.
  apply (run_only_admin (platform := toy_platform) store_alice _
           (run_request quiet store_alice None (ReqRegister POST form_111))).
  intros u [<-|[]] H. discriminate H.
Defined.

(** Every message keeps a stored sender and every item a stored seller
    over any run: the sender and the seller are the session's user, and
    users are never removed. *)
Theorem run_references {platform : Platform} (d d' : Store) :
  run d d' ->
  senders_stored d /\ sellers_stored d ->
  senders_stored d' /\ sellers_stored d'.
Proof.
  apply (run_invariant (fun x => senders_stored x /\ sellers_stored x)).
  exact write_references.
Qed.

Lemma run_references_witness :
  senders_stored (snd (fst (handle (platform := toy_platform) quiet
                              store_alice (Some 1)
                              (ReqSendMessage (Some payload_hello)))))
  /\ sellers_stored (snd (fst (handle (platform := toy_platform) quiet
                                 store_alice (Some 1)
                                 (ReqSendMessage (Some payload_hello))))).
Proof.
  apply (run_references (platform := toy_platform) store_alice _
           (run_request quiet store_alice (Some 1)
              (ReqSendMessage (Some payload_hello)))).
  split; intros x [].
Defined.

(** ** Upload names *)

Lemma contains_cut (sep : ascii) (s : string) :
  Py.contains sep s = true ->
  exists base ext, s = base ++ String sep ext /\ Py.contains sep ext = false.
Proof.
  induction s as [|c s IH]; simpl; [discriminate|].
  destruct (Py.contains sep s) eqn:E.
  - intros _. destruct (IH eq_refl) as (base & ext & -> & Hext).
    exists (String c base), ext. split; [reflexivity | exact Hext].
  - rewrite orb_false_r. intros Hc. apply Ascii.eqb_eq in Hc. subst c.
    exists EmptyString, s. split; [reflexivity | exact E].
Qed.

Lemma contains_append (sep : ascii) (base ext : string) :
  Py.contains sep (base ++ String sep ext) = true.
Proof.
  induction base as [|c base IH]; simpl.
  - rewrite Ascii.eqb_refl. reflexivity.
  - rewrite IH. apply orb_true_r.
Qed.

(** [s.rsplit(sep, 1)[1]] is what follows the last separator. *)
Lemma rsplit1_tail (sep : ascii) (base ext : string) :
  Py.contains sep ext = false ->
  nth_error (Py.rsplit1 sep (base ++ String sep ext)) 1 = Some ext.
Proof.
  intros Hext. unfold Py.rsplit1.
  destruct (split_app_sep sep base ext) as (l & Hl & ->).
  rewrite (split_without_sep _ _ Hext).
  destruct l as [|h t]; [congruence|].
  assert (Hlast : Py.index_last ((h :: t) ++ [ext]) = Some ext)
    by (rewrite index_last_app by discriminate; reflexivity).
  destruct t as [|h2 t]; cbn [app] in *; rewrite Hlast; reflexivity.
Qed.

(** A file name is accepted exactly when it has a dot and what follows
    its last dot is, letter case apart, png, jpg, jpeg or gif. A name
    without a dot is refused whatever it is, a name that is only an
    extension after a dot (".png") is accepted, and only the last
    extension counts ("photo.png.exe" is refused). *)
Theorem allowed_file_iff (name : string) :
  allowed_file name = true
  <-> exists base ext,
        name = base ++ String "." ext
        /\ Py.contains "." ext = false
        /\ In (Py.lower ext) ALLOWED_EXTENSIONS.
Proof.
  unfold allowed_file. split.
  - intros H. apply andb_true_iff in H as [Hdot Hext].
    destruct (contains_cut _ _ Hdot) as (base & ext & -> & Hno).
    rewrite (rsplit1_tail _ base ext Hno) in Hext.
    exists base, ext. repeat split; [exact Hno|].
    apply existsb_exists in Hext as [x [Hin Hx]].
    apply String.eqb_eq in Hx. subst x. exact Hin.
  - intros (base & ext & -> & Hno & Hin).
    rewrite contains_append, (rsplit1_tail _ base ext Hno). cbn [andb].
    apply existsb_exists. exists (Py.lower ext).
    split; [exact Hin | apply String.eqb_refl].
Qed.

Example allowed_file_examples :
  allowed_file "photo.PNG" = true
  /\ allowed_file ".png" = true
  /\ allowed_file "png" = false
  /\ allowed_file "photo.png.exe" = false
  /\ allowed_file "archive.tar.gif" = true
  /\ allowed_file "photo." = false.
Proof. repeat split; reflexivity. Qed.

(** ** Access control *)

(** A request of a protected route that carries no valid session is
    answered with the redirect to the login page, and neither the store
    nor the session changes: the view behind the decorator is not run. *)
Theorem anonymous_redirected {platform : Platform}
  (amb : Ambient) (d : Store) (s : Session) (req : Request) :
  protected req = true ->
  current_user d s = None ->
  handle amb d s req = (please_log_in, d, s).
Proof.
  intros Hp Hanon.
  destruct req; try discriminate Hp; cbn [handle];
    unfold logout, sell_item, my_items, buy_item, chat_with_seller,
      send_message, send_message_unparsable, get_messages;
    rewrite ?login_required_anonymous by exact Hanon;
    try rewrite Hanon; reflexivity.
Qed.

Lemma anonymous_redirected_witness :
  handle (platform := toy_platform) quiet shop_42 None
    (ReqSell POST (sell_form "5") None)
  = (please_log_in, shop_42, None)
  /\ handle (platform := toy_platform) quiet shop_42 (Some 7)
       (ReqSendMessage (Some payload_hello))
     = (please_log_in, shop_42, Some 7).
Proof.
  split; apply (anonymous_redirected (platform := toy_platform));
    reflexivity.
Defined.

(** ** The payment callback: what goes wrong and what is listed *)

Lemma get_or_404_absent (d : Store) (id : Z) :
  Sql.int64 id = true ->
  (forall it, In it (items d) -> item_id it <> id) ->
  get_or_404 d id = inl (Abort 404).
Proof.
  intros Hr Hnone. unfold get_or_404. rewrite Hr.
  destruct (get_item d id) as [it|] eqn:E; [|reflexivity].
  apply get_item_in in E as (_ & Hin & Hid). exfalso. exact (Hnone it Hin Hid).
Qed.

Lemma get_or_404_overflow (d : Store) (id : Z) :
  Sql.int64 id = false -> get_or_404 d id = inl (Fault "OverflowError").
Proof. intros Hr. unfold get_or_404. rewrite Hr. reflexivity. Qed.



(** After a successful callback for an item, the home page lists exactly
    the items that were unsold before and have another key: the paid
    item is gone from the listing and nothing else is. *)
Theorem home_after_payment (d : Store) (form : Form)
  (order_id seg : string) (id : Z) (item : Item) :
  Py.assoc "STATUS" form = Some "TXN_SUCCESS" ->
  Py.assoc "ORDERID" form = Some order_id ->
  last_segment "_" order_id seg ->
  Py.int seg = Some id ->
  get_item d id = Some item ->
  exists listed,
    home (snd (paytm_redirect d form)) = Render "home.html" [] (ItemList listed)
    /\ forall it, In it listed
                  <-> In it (items d) /\ is_sold it = false
                      /\ item_id it <> id.
Proof.
  intros Hst Hord Hseg Hint Hget.
  rewrite (paytm_redirect_success d form order_id seg id item) by assumption.
  cbn [snd]. unfold home. eexists. split; [reflexivity|].
  intros it. rewrite filter_In. cbn [update_sold items].
  rewrite in_map_iff. split.
  - intros [[x [Hx Hin]] Hunsold].
    destruct (item_id x =? id) eqn:E.
    + subst it. discriminate Hunsold.
    + subst it. apply Z.eqb_neq in E.
      apply negb_true_iff in Hunsold. auto.
  - intros (Hin & Hunsold & Hne). split.
    + exists it. split; [|exact Hin].
      apply Z.eqb_neq in Hne. rewrite Hne. reflexivity.
    + rewrite Hunsold. reflexivity.
Qed.

Lemma home_after_payment_witness :
  exists listed,
    home (snd (paytm_redirect shop_42 callback_success))
    = Render "home.html" [] (ItemList listed)
    /\ forall it, In it listed
                  <-> In it (items shop_42) /\ is_sold it = false
                      /\ item_id it <> 42.
Proof.
  apply (home_after_payment shop_42 callback_success "order_42" "42" 42
           item_42); try reflexivity.
  split; [reflexivity | right; exists "order"; reflexivity].
Defined.

(** ** Sending: what is persisted *)

(** [send_message] stores a row only together with its 200 answer: with
    any other answer (the 400 of a missing field, the login redirect, a
    refused body, an exception of the document or of the store) the
    store is as it was. *)
Theorem send_message_persists_on_success {platform : Platform}
  (amb : Ambient) (d : Store) (s : Session) (json : option Json.value) :
  fst (send_message amb d s json) <> Jsonify 200 success_body ->
  snd (send_message amb d s json) = d.
Proof.
  unfold send_message, login_required.
  destruct (current_user d s); [|reflexivity].
  destruct json as [[| | | | | |data]|]; try reflexivity.
  destruct (Json.truthy _ && Json.truthy _); [|reflexivity].
  destruct (Sql.bind _); [|reflexivity].
  destruct (Sql.bind _); [|reflexivity].
  destruct (insert_message d _); [|reflexivity].
  cbn [fst]. congruence.
Qed.

Lemma send_message_persists_on_success_witness :
  snd (send_message (platform := toy_platform) quiet store_alice (Some 1)
         (Some (Json.VList [Json.VStr "hi"]))) = store_alice
  /\ snd (send_message (platform := toy_platform) quiet store_alice (Some 1)
            (Some (Json.VDict [("to_user_id", Json.VList [Json.VInt 2]);
                               ("message", Json.VStr "hi")]))) = store_alice.
Proof.
  split; apply (send_message_persists_on_success (platform := toy_platform));
    discriminate.
Defined.

(** ** Listing: the image, and where the new item shows *)

Section Listing.

Context {platform : Platform}.

Lemma sell_item_success (d : Store) (s : Session) (user : User) (form : Form)
  (file : option FileStorage) (t ds pt loc : string) (x stored : spec_float) :
  current_user d s = Some user ->
  Py.assoc "title" form = Some t ->
  Py.assoc "description" form = Some ds ->
  Py.assoc "price" form = Some pt ->
  Py.assoc "location" form = Some loc ->
  Py.float pt = Some x -> Sql.stored_real x = Some stored ->
  sell_item d s POST form file
  = (Redirect "home" ["Item listed successfully!"],
     {| users := users d;
        items := (items d ++
                  [{| item_id := next_id (map item_id (items d));
                      title := t; description := ds; price := stored;
                      currency := match Py.assoc "currency" form with
                                  | Some c => c
                                  | None => "INR"
                                  end;
                      image_filename := fst (image_kept d file);
                      seller_id := user_id user; location := loc;
                      latitude := None; longitude := None;
                      is_sold := false |}])%list;
        messages := messages d;
        uploads := snd (image_kept d file) |}).
Proof.
  intros Hu Ht Hd Hp Hl Hx Hst. unfold sell_item, image_kept.
  rewrite (login_required_user _ _ _ _ Hu), Ht, Hd, Hp, Hl, Hx.
  destruct file as [f|]; [destruct (negb _ && _)|];
    rewrite (insert_item_stored _ _ stored) by exact Hst; reflexivity.
Qed.

Lemma current_user_same_users (d d' : Store) (s : Session) :
  users d' = users d -> current_user d' s = current_user d s.
Proof.
  intros H. destruct s as [id|]; [|reflexivity].
  unfold current_user, load_user, get_user. rewrite H. reflexivity.
Qed.

End Listing.

(** A listing keeps an image only when a file with a non-empty,
    accepted name is uploaded: the file is then saved under its
    sanitised name and the item refers to that name. With no file, an
    unnamed one or a refused extension the item is listed all the same,
    without an image, and the upload folder is untouched. *)
Theorem sell_item_image {platform : Platform}
  (d : Store) (s : Session) (user : User) (form : Form)
  (file : option FileStorage) (t ds pt loc : string) (x stored : spec_float) :
  current_user d s = Some user ->
  Py.assoc "title" form = Some t ->
  Py.assoc "description" form = Some ds ->
  Py.assoc "price" form = Some pt ->
  Py.assoc "location" form = Some loc ->
  Py.float pt = Some x -> Sql.stored_real x = Some stored ->
  exists it,
    items (snd (sell_item d s POST form file)) = (items d ++ [it])%list
    /\ (forall f, file = Some f -> filename f <> "" ->
                  allowed_file (filename f) = true ->
                  image_filename it = Some (secure_filename (filename f))
                  /\ uploads (snd (sell_item d s POST form file))
                     = (secure_filename (filename f), content f) :: uploads d)
    /\ ((file = None
         \/ exists f, file = Some f
                      /\ (filename f = "" \/ allowed_file (filename f) = false)) ->
        image_filename it = None
        /\ uploads (snd (sell_item d s POST form file)) = uploads d).
Proof.
  intros Hu Ht Hd Hp Hl Hx Hst.
  rewrite (sell_item_success d s user form file t ds pt loc x stored)
    by assumption.
  eexists. split; [reflexivity|]. cbn [snd uploads image_filename].
  unfold image_kept. split.
  - intros f -> Hname Hok. apply String.eqb_neq in Hname.
    rewrite Hname, Hok. split; reflexivity.
  - intros [->|[f [-> [Hname|Hbad]]]]; [split; reflexivity | |].
    + rewrite Hname. split; reflexivity.
    + rewrite Hbad, andb_false_r. split; reflexivity.
Qed.

Lemma sell_item_image_witness :
  uploads (snd (sell_item (platform := toy_platform) shop_42 (Some 1) POST
                  (sell_form "250") (Some lamp_photo)))
  = [("lamp.JPG", "jpeg bytes")]
  /\ uploads (snd (sell_item (platform := toy_platform) shop_42 (Some 1) POST
                     (sell_form "250") (Some lamp_script))) = [].
Proof.
  split.
  - destruct (sell_item_image (platform := toy_platform) shop_42 (Some 1)
                seller_1 (sell_form "250") (Some lamp_photo)
                "lamp" "desk lamp" "250" "Pune" _ _
                eq_refl eq_refl eq_refl eq_refl eq_refl eq_refl eq_refl)
      as (it & _ & H & _).
    apply (H lamp_photo eq_refl); [discriminate | reflexivity].
  - destruct (sell_item_image (platform := toy_platform) shop_42 (Some 1)
                seller_1 (sell_form "250") (Some lamp_script)
                "lamp" "desk lamp" "250" "Pune" _ _
                eq_refl eq_refl eq_refl eq_refl eq_refl eq_refl eq_refl)
      as (it & _ & _ & H).
    apply H. right. exists lamp_script. split; [reflexivity|].
    right. reflexivity.
Defined.

(** A listing that succeeds shows at once: the new item, unsold and
    owned by the session's user, is on the home page and among that
    user's own items, and the own items are all that user's. *)
Theorem sell_item_then_listed {platform : Platform}
  (d : Store) (s : Session) (user : User) (form : Form)
  (file : option FileStorage) (t ds pt loc : string) (x stored : spec_float) :
  current_user d s = Some user ->
  Py.assoc "title" form = Some t ->
  Py.assoc "description" form = Some ds ->
  Py.assoc "price" form = Some pt ->
  Py.assoc "location" form = Some loc ->
  Py.float pt = Some x -> Sql.stored_real x = Some stored ->
  let d' := snd (sell_item d s POST form file) in
  exists it on_home own,
    items d' = (items d ++ [it])%list
    /\ price it = stored /\ seller_id it = user_id user
    /\ home d' = Render "home.html" [] (ItemList on_home)
    /\ In it on_home
    /\ my_items d' s = (Render "my_items.html" [] (ItemList own), d')
    /\ In it own
    /\ forall other, In other own -> seller_id other = user_id user.
Proof.
  intros Hu Ht Hd Hp Hl Hx Hst d'. subst d'.
  rewrite (sell_item_success d s user form file t ds pt loc x stored)
    by assumption.
  cbn [snd]. eexists; eexists; eexists.
  split; [reflexivity|]. split; [reflexivity|]. split; [reflexivity|].
  split; [reflexivity|]. split.
  { apply filter_In. cbn [items]. split; [|reflexivity].
    apply in_app_iff. right. left. reflexivity. }
  split.
  { unfold my_items. rewrite (login_required_user _ _ user); [reflexivity|].
    rewrite <- Hu. apply current_user_same_users. reflexivity. }
  split.
  - apply filter_In. cbn [items seller_id]. split.
    + apply in_app_iff. right. left. reflexivity.
    + apply Z.eqb_refl.
  - intros other Hin. apply filter_In in Hin as [_ Hin].
    apply Z.eqb_eq. exact Hin.
Qed.

Lemma sell_item_then_listed_witness :
  exists it on_home own,
    items (snd (sell_item (platform := toy_platform) shop_42 (Some 1) POST
                  (sell_form "250") None)) = [item_42; it]
    /\ home (snd (sell_item (platform := toy_platform) shop_42 (Some 1) POST
                    (sell_form "250") None))
       = Render "home.html" [] (ItemList on_home)
    /\ In it on_home
    /\ fst (my_items (snd (sell_item (platform := toy_platform) shop_42
                             (Some 1) POST (sell_form "250") None)) (Some 1))
       = Render "my_items.html" [] (ItemList own)
    /\ In it own.
Proof.
  destruct (sell_item_then_listed (platform := toy_platform) shop_42 (Some 1)
              seller_1 (sell_form "250") None
              "lamp" "desk lamp" "250" "Pune" _ _
              eq_refl eq_refl eq_refl eq_refl eq_refl eq_refl eq_refl)
    as (it & on_home & own & H1 & _ & _ & H2 & H3 & H4 & H5 & _).
  exists it, on_home, own. rewrite H4.
  split; [exact H1|]. split; [exact H2|]. split; [exact H3|].
  split; [reflexivity | exact H5].
Defined.

(** ** Accounts: registration, login and the session *)

Lemma NoDup_map_inj {A B : Type} (f : A -> B) (l : list A) (x y : A) :
  NoDup (map f l) -> In x l -> In y l -> f x = f y -> x = y.
Proof.
  induction l as [|a l IH]; simpl; intros Hnd Hx Hy E; [contradiction|].
  inversion Hnd as [|? ? Hnotin Hnd']; subst.
  destruct Hx as [->|Hx], Hy as [->|Hy]; auto.
  - exfalso. apply Hnotin. rewrite E. apply in_map. exact Hy.
  - exfalso. apply Hnotin. rewrite <- E. apply in_map. exact Hx.
Qed.

Lemma find_app_absent {A : Type} (p : A -> bool) (l : list A) (x : A) :
  (forall y, In y l -> p y = false) ->
  find p (l ++ [x]) = if p x then Some x else None.
Proof.
  intros Hl. induction l as [|a l IH]; simpl; [reflexivity|].
  rewrite (Hl a (or_introl eq_refl)). apply IH.
  intros y Hy. apply Hl. right. exact Hy.
Qed.

Lemma first_login_match_new (login_input : string) (l : list User)
  (u : User) :
  (forall v, In v l -> matches_login login_input v = false) ->
  matches_login login_input u = true ->
  first_login_match login_input (l ++ [u]) = Some u.
Proof.
  intros Hl Hu. unfold first_login_match.
  rewrite !find_app_absent;
    try (intros y Hy; specialize (Hl y Hy); unfold matches_login in Hl;
         apply orb_false_iff in Hl as [H1 H3];
         apply orb_false_iff in H1 as [H1 H2]; assumption).
  unfold matches_login in Hu.
  destruct (String.eqb (username u) login_input); [reflexivity|].
  destruct (String.eqb (email u) login_input); [reflexivity|].
  destruct (String.eqb (phone u) login_input); [reflexivity|].
  discriminate Hu.
Qed.

Lemma register_created {platform : Platform}
  (amb : Ambient) (d : Store) (s : Session) (form : Form)
  (name mail tel password : string) :
  current_user d s = None ->
  Py.assoc "username" form = Some name ->
  Py.assoc "email" form = Some mail ->
  Py.assoc "phone" form = Some tel ->
  Py.assoc "password" form = Some password ->
  (forall u, In u (users d) ->
             username u <> name /\ email u <> mail /\ phone u <> tel) ->
  register amb d s POST form
  = (Redirect "login" ["Registration successful! Please login."],
     {| users := (users d ++
                  [{| user_id := next_id (map user_id (users d));
                      username := name;
                      password_hash :=
                        generate_password_hash (entropy amb) password;
                      email := mail; phone := tel; is_admin := false;
                      upi_id := None |}])%list;
        items := items d; messages := messages d; uploads := uploads d |}).
Proof.
  intros Hanon Hn Hm Ht Hp Hfresh. unfold register.
  rewrite Hanon, Hn, Hm, Ht, Hp.
  apply find_collides_none in Hfresh as [Hfind Hex].
  rewrite Hfind. unfold insert_user. cbn [username email phone set_password].
  rewrite Hex. reflexivity.
Qed.

(** Registration and login fit together: when the hasher accepts the
    password its hash was made from, a client that has just registered
    can log in with the username, the email or the phone it gave,
    provided no earlier user carries that identifier in any of the three
    fields; the session is then bound to the new account. *)
Theorem register_then_login {platform : Platform}
  (amb : Ambient) (d : Store) (s : Session) (form login_fields : Form)
  (name mail tel password login_input : string) :
  current_user d s = None ->
  Py.assoc "username" form = Some name ->
  Py.assoc "email" form = Some mail ->
  Py.assoc "phone" form = Some tel ->
  Py.assoc "password" form = Some password ->
  (forall u, In u (users d) ->
             username u <> name /\ email u <> mail /\ phone u <> tel) ->
  hasher_sound (entropy amb) password ->
  login_input = name \/ login_input = mail \/ login_input = tel ->
  (forall u, In u (users d) -> matches_login login_input u = false) ->
  Py.assoc "login_input" login_fields = Some login_input ->
  Py.assoc "password" login_fields = Some password ->
  login (snd (register amb d s POST form)) None POST login_fields
  = (Redirect "home" [], Some (next_id (map user_id (users d)))).
Proof.
  intros Hanon Hn Hm Ht Hp Hfresh Hhash Hident Hshadow Hli Hlp.
  rewrite (register_created amb d s form name mail tel password)
    by assumption.
  cbn [snd]. unfold login. cbn [current_user users]. rewrite Hli, Hlp.
  rewrite first_login_match_new.
  - unfold check_password. cbn [password_hash user_id].
    unfold hasher_sound in Hhash. rewrite Hhash. reflexivity.
  - exact Hshadow.
  - apply matches_login_true. cbn [username email phone].
    destruct Hident as [-> | [-> | ->]]; auto.
Qed.

Lemma register_then_login_witness :
  login (platform := toy_platform)
    (snd (register (platform := toy_platform) quiet store_alice None POST
            form_bob_own))
    None POST (login_form "222" "builder")
  = (Redirect "home" [], Some 2).
Proof.
  apply (register_then_login (platform := toy_platform) quiet store_alice None
           form_bob_own (login_form "222" "builder")
           "bob" "bob@x.com" "222" "builder" "222"
           eq_refl eq_refl eq_refl eq_refl eq_refl).
  - intros u [<-|[]]. repeat split; discriminate.
  - reflexivity.
  - right. right. reflexivity.
  - intros u [<-|[]]. reflexivity.
  - reflexivity.
  - reflexivity.
Defined.

(** A login that answers with the redirect home leaves a session that
    loads a stored user (user keys being distinct); for a client that
    was not logged in, that user carries the submitted identifier in one
    of the three fields and its hash verifies the submitted password;
    and logging out then clears the session. *)
Theorem login_establishes_session {platform : Platform}
  (d : Store) (s s' : Session) (m : method) (form : Form)
  (flashed : list string) :
  NoDup (map user_id (users d)) ->
  login d s m form = (Redirect "home" flashed, s') ->
  exists u,
    current_user d s' = Some u
    /\ logout d s' = (Redirect "home" [], None)
    /\ (current_user d s = None ->
        exists login_input password,
          Py.assoc "login_input" form = Some login_input
          /\ Py.assoc "password" form = Some password
          /\ matches_login login_input u = true
          /\ check_password u password = true).
Proof.
  intros Hnd. unfold login.
  destruct (current_user d s) as [u0|] eqn:Hu.
  - intros [= _ <-]. exists u0. unfold logout. rewrite Hu.
    repeat split. discriminate.
  - destruct m; [discriminate|].
    destruct (Py.assoc "login_input" form) as [li|]; [|discriminate].
    destruct (Py.assoc "password" form) as [pw|]; [|discriminate].
    destruct (first_login_match li (users d)) as [u|] eqn:F; [|discriminate].
    destruct (check_password u pw) eqn:C; [|discriminate].
    intros [= _ <-]. exists u.
    apply first_login_match_some in F as [Hin Hmatch].
    assert (Hload : current_user d (Some (user_id u)) = Some u).
    { unfold current_user, load_user, get_user.
      apply find_unique; [exact Hin | apply Z.eqb_refl |].
      intros y Hy Hid. apply Z.eqb_eq in Hid.
      exact (NoDup_map_inj user_id (users d) y u Hnd Hy Hin Hid). }
    split; [exact Hload|]. split.
    + unfold logout. rewrite Hload. reflexivity.
    + intros _. exists li, pw. auto.
Qed.

Lemma login_establishes_session_witness :
  exists u,
    current_user store_alice_111 (Some 2) = Some u
    /\ logout store_alice_111 (Some 2) = (Redirect "home" [], None).
Proof.
  destruct (login_establishes_session (platform := toy_platform)
              store_alice_111 None (Some 2) POST
              (login_form "b@x.com" "builder") []) as (u & H1 & H2 & _).
  - repeat constructor; [intros [H|[]]; discriminate H | intros []].
  - reflexivity.
  - exists u. split; [exact H1 | exact H2].
Defined.

(** ** Messaging: a sent message is read back *)

Lemma in_get_conversation (d : Store) (a b : Z) (m : ChatMessage) :
  In m (get_conversation d a b)
  <-> In m (messages d) /\ between a b m = true.
Proof.
  unfold get_conversation. rewrite <- filter_In. split.
  - apply Permutation_in, Permutation_sym, order_by_timestamp_perm.
  - apply Permutation_in, order_by_timestamp_perm.
Qed.

(** A message sent to the integer identifier [b] is in the conversation
    both parties poll from then on, and every row either of any two
    users could read before is still read (the store keeping an integer
    written to the integer column as it is). *)
Theorem send_message_then_read {platform : Platform}
  (amb : Ambient) (d : Store) (s : Session) (user : User)
  (data : list (string * Json.value)) (b : Z) (body_value : Sql.value) :
  current_user d s = Some user ->
  Json.get data "to_user_id" = Json.VInt b ->
  b <> 0 -> - 2 ^ 63 <= b < 2 ^ 63 ->
  Json.truthy (Json.get data "message") = true ->
  Sql.bind (Json.get data "message") = Some body_value ->
  body_value <> Sql.Null ->
  affinity Sql.IntegerColumn (Sql.Int b) = Sql.Int b ->
  let d' := snd (send_message amb d s (Some (Json.VDict data))) in
  exists m,
    messages d' = (messages d ++ [m])%list
    /\ In m (get_conversation d' (user_id user) b)
    /\ In m (get_conversation d' b (user_id user))
    /\ forall x a c, In x (get_conversation d a c) ->
                     In x (get_conversation d' a c).
Proof.
  intros Hu Hto Hb Hrange Hbody Hbind Hnull Haff d'. subst d'.
  unfold send_message. rewrite (login_required_user _ _ _ _ Hu), Hto, Hbody.
  assert (Hnz : Json.truthy (Json.VInt b) = true)
    by (cbn; apply negb_true_iff, Z.eqb_neq; exact Hb).
  rewrite Hnz. cbn [andb].
  assert (Hbt : Sql.bind (Json.VInt b) = Some (Sql.Int b)).
  { cbn [Sql.bind]. unfold Sql.int64.
    assert (E1 : (- 2 ^ 63 <=? b) = true) by (apply Z.leb_le; lia).
    assert (E2 : (b <? 2 ^ 63) = true) by (apply Z.ltb_lt; lia).
    rewrite E1, E2. reflexivity. }
  rewrite Hbt, Hbind, Haff.
  rewrite insert_message_stored
    by (cbn [message]; apply affinity_not_null; exact Hnull).
  cbn [snd messages]. eexists. split; [reflexivity|].
  assert (Hnew : forall l (x : ChatMessage), In x (l ++ [x])%list)
    by (intros l x; apply in_app_iff; right; left; reflexivity).
  split; [|split].
  - apply in_get_conversation. cbn [messages]. split; [apply Hnew|].
    unfold between. cbn [from_user_id to_user_id Sql.eq_int].
    rewrite !Z.eqb_refl. reflexivity.
  - apply in_get_conversation. cbn [messages]. split; [apply Hnew|].
    unfold between. cbn [from_user_id to_user_id Sql.eq_int].
    rewrite !Z.eqb_refl. apply orb_true_r.
  - intros x a c Hx. apply in_get_conversation in Hx as [Hin Hbt'].
    apply in_get_conversation. cbn [messages]. split; [|exact Hbt'].
    apply in_app_iff. left. exact Hin.
Qed.

Lemma send_message_then_read_witness :
  exists m,
    messages (snd (send_message (platform := toy_platform) quiet
                     store_alice_111 (Some 1) (Some payload_hello))) = [m]
    /\ In m (get_conversation
               (snd (send_message (platform := toy_platform) quiet
                       store_alice_111 (Some 1) (Some payload_hello))) 2 1).
Proof.
  destruct (send_message_then_read (platform := toy_platform) quiet
              store_alice_111 (Some 1) alice
              [("to_user_id", Json.VInt 2); ("message", Json.VStr "hello")]
              2 (Sql.Text "hello") eq_refl eq_refl)
    as (m & H1 & _ & H2 & _);
    try reflexivity; try discriminate; try lia.
  exists m. split; [exact H1 | exact H2].
Defined.

Lemma message_list_stored {platform : Platform} (d : Store)
  (msgs : list ChatMessage) :
  (forall m, In m msgs -> exists u, get_user d (from_user_id m) = Some u) ->
  exists entries, message_list d msgs = Some entries
                  /\ List.length entries = List.length msgs.
Proof.
  induction msgs as [|m l IH]; intros H; simpl.
  - exists []. auto.
  - destruct IH as (es & -> & Hlen);
      [intros x Hx; apply H; right; exact Hx|].
    unfold message_entry. destruct (H m (or_introl eq_refl)) as [u ->].
    eexists. split; [reflexivity|]. simpl. rewrite Hlen. reflexivity.
Qed.

(** Polling about a 64-bit key never fails for a logged-in user (whose
    own key is one) when every stored message has a stored sender: the
    answer is 200 with one entry for each row of the conversation, and
    the store is not touched. A key beyond 64 bits cannot be bound: the
    request ends in an uncaught OverflowError. *)
Theorem get_messages_answers {platform : Platform}
  (d : Store) (s : Session) (user : User) (to : Z) :
  senders_stored d ->
  current_user d s = Some user ->
  - 2 ^ 63 <= user_id user < 2 ^ 63 ->
  (- 2 ^ 63 <= to < 2 ^ 63 ->
   exists entries,
     get_messages d s to = (Jsonify 200 (Json.VList entries), d)
     /\ List.length entries
        = List.length (get_conversation d (user_id user) to))
  /\ (to < - 2 ^ 63 \/ 2 ^ 63 <= to ->
      get_messages d s to = (Fault "OverflowError", d)).
Proof.
  intros Hs Hu Hkey. unfold get_messages, query_conversation.
  rewrite (login_required_user _ _ _ _ Hu).
  assert (Ekey : Sql.int64 (user_id user) = true).
  { unfold Sql.int64. apply andb_true_iff.
    split; [apply Z.leb_le | apply Z.ltb_lt]; lia. }
  rewrite Ekey. cbn [andb]. split.
  - intros Hto.
    assert (Eto : Sql.int64 to = true).
    { unfold Sql.int64. apply andb_true_iff.
      split; [apply Z.leb_le | apply Z.ltb_lt]; lia. }
    rewrite Eto.
    destruct (message_list_stored d (get_conversation d (user_id user) to))
      as (es & -> & Hlen).
    + intros m Hm. apply in_get_conversation in Hm as [Hin _].
      exact (Hs m Hin).
    + exists es. auto.
  - intros Hto.
    assert (Eto : Sql.int64 to = false).
    { unfold Sql.int64. apply andb_false_iff.
      destruct Hto; [left; apply Z.leb_gt | right; apply Z.ltb_ge]; lia. }
    rewrite Eto. reflexivity.
Qed.

Lemma get_messages_answers_witness :
  (exists entries,
      get_messages (platform := toy_platform) store_chat (Some 1) 2
      = (Jsonify 200 (Json.VList entries), store_chat)
      /\ List.length entries = 3%nat)
  /\ get_messages (platform := toy_platform) store_chat (Some 1)
       9223372036854775808
     = (Fault "OverflowError", store_chat).
Proof.
  assert (Hs : senders_stored store_chat)
    by (intros m [<-|[<-|[<-|[<-|[]]]]]; eexists; reflexivity).
  assert (Hk : - 2 ^ 63 <= user_id alice < 2 ^ 63) by (cbn; lia).
  split.
  - apply (proj1 (get_messages_answers (platform := toy_platform) store_chat
                    (Some 1) alice 2 Hs eq_refl Hk)). lia.
  - apply (proj2 (get_messages_answers (platform := toy_platform) store_chat
                    (Some 1) alice 9223372036854775808 Hs eq_refl Hk)).
    right. lia.
Defined.

Lemma get_messages_symmetric_witness :
  get_messages (platform := toy_platform) store_chat (Some 1) 2
  = get_messages (platform := toy_platform) store_chat (Some 2) 1.
Proof.
  apply (get_messages_symmetric (platform := toy_platform) store_chat
           (Some 1) (Some 2) alice user_111); reflexivity.
Defined.

Lemma reachable_item_ids_unique_witness :
  item_ids_unique two_listings
  /\ map item_id (items two_listings) = [1; 2].
Proof.
  split; [|reflexivity].
  apply (reachable_item_ids_unique (platform := toy_platform)).
  unfold two_listings.
  eapply run_step; [apply (step_request quiet empty_store None
                             req_register_alice)|].
  eapply run_step; [apply (step_request quiet _ (Some 1) req_sell_lamp)|].
  apply run_request.
Defined.

(** ** The start-up routine *)

(** Running the start-up routine again changes nothing: once it has
    succeeded a user named "admin" is stored and every later run returns
    the store as it is. *)
Theorem create_tables_idempotent {platform : Platform}
  (amb amb' : Ambient) (d d' : Store) :
  create_tables amb d = Some d' ->
  create_tables amb' d' = Some d'
  /\ exists u, In u (users d') /\ username u = "admin".
Proof.
  unfold create_tables.
  destruct (find (fun u => String.eqb (username u) "admin") (users d))
    as [u|] eqn:F.
  - intros [= <-]. rewrite F. split; [reflexivity|].
    apply find_some in F as [Hin Hname]. apply String.eqb_eq in Hname. eauto.
  - intros E. apply insert_user_some in E as (Hus & _).
    assert (Hin : In (set_password (entropy amb)
                        {| user_id := next_id (map user_id (users d));
                           username := "admin"; password_hash := "";
                           email := "admin@example.com";
                           phone := "0000000000"; is_admin := true;
                           upi_id := Some "your-upi-id@bank" |} "adminpass")
                     (users d'))
      by (rewrite Hus; apply in_app_iff; right; left; reflexivity).
    split; [|eexists; split; [exact Hin | reflexivity]].
    destruct (find (fun u => String.eqb (username u) "admin") (users d'))
      as [v|] eqn:F'; [reflexivity|].
    apply (find_none _ _ F') in Hin. discriminate Hin.
Qed.

Lemma create_tables_idempotent_witness :
  exists d',
    create_tables (platform := toy_platform) quiet store_alice = Some d'
    /\ create_tables (platform := toy_platform) quiet d' = Some d'.
Proof.
  eexists. split; [reflexivity|].
  apply (proj1 (create_tables_idempotent (platform := toy_platform)
                  quiet quiet store_alice _ eq_refl)).
Defined.

(** The start-up routine fails, and stores nothing, when no user is
    named "admin" but a registered user already has the administrator's
    email or phone number: the insert violates the unique column. *)
Theorem create_tables_blocked {platform : Platform}
  (amb : Ambient) (d : Store) (u : User) :
  (forall v, In v (users d) -> username v <> "admin") ->
  In u (users d) ->
  email u = "admin@example.com" \/ phone u = "0000000000" ->
  create_tables amb d = None.
Proof.
  intros Hnone Hin Hu. unfold create_tables.
  destruct (find _ (users d)) as [v|] eqn:F.
  - apply find_some in F as [Hv Hname]. apply String.eqb_eq in Hname.
    exfalso. exact (Hnone v Hv Hname).
  - unfold insert_user. cbn [username email phone set_password].
    assert (E : existsb (collides "admin" "admin@example.com" "0000000000")
                  (users d) = true).
    { apply existsb_exists. exists u. split; [exact Hin|].
      apply collides_true. tauto. }
    rewrite E. reflexivity.
Qed.

Lemma create_tables_blocked_witness :
  create_tables (platform := toy_platform) quiet store_admin_taken = None.
Proof.
  apply (create_tables_blocked (platform := toy_platform) quiet
           store_admin_taken admin_taken).
  - intros v [<-|[]]. discriminate.
  - left. reflexivity.
  - right. reflexivity.
Defined.

(** ** Item pages *)

(** For a key of 64 bits the item page, the purchase page and the chat
    page answer 404 exactly when no stored item has the key; otherwise
    they show an item of that key, the item page with its seller's row
    and the chat page with the conversation with the seller. A key
    beyond 64 bits cannot be bound: each page ends in an uncaught
    OverflowError. *)
Theorem item_views_404 (d : Store) (s : Session) (user : User) (id : Z) :
  current_user d s = Some user ->
  (- 2 ^ 63 <= id < 2 ^ 63 ->
   (forall it, In it (items d) -> item_id it <> id) ->
   item_details d id = Abort 404
   /\ buy_item d s id = (Abort 404, d)
   /\ chat_with_seller d s id = (Abort 404, d))
  /\ (- 2 ^ 63 <= id < 2 ^ 63 ->
      forall it, In it (items d) -> item_id it = id ->
      exists found,
        item_id found = id /\ In found (items d)
        /\ item_details d id
           = Render "item.html" [] (ItemView found (get_user d (seller_id found)))
        /\ buy_item d s id = (Render "buy.html" [] (ItemView found None), d)
        /\ (Sql.int64 (user_id user) && Sql.int64 (seller_id found) = true ->
            chat_with_seller d s id
            = (Render "chat.html" []
                 (ChatView found (seller_id found)
                    (get_conversation d (user_id user) (seller_id found))),
               d)))
  /\ (id < - 2 ^ 63 \/ 2 ^ 63 <= id ->
      item_details d id = Fault "OverflowError"
      /\ buy_item d s id = (Fault "OverflowError", d)
      /\ chat_with_seller d s id = (Fault "OverflowError", d)).
Proof.
  intros Hu. unfold item_details, buy_item, chat_with_seller.
  rewrite !(login_required_user _ _ _ _ Hu). split; [|split].
  - intros Hr Hnone. rewrite get_or_404_absent; [auto | | exact Hnone].
    unfold Sql.int64. apply andb_true_iff.
    split; [apply Z.leb_le | apply Z.ltb_lt]; lia.
  - intros Hr it Hin Hid.
    assert (Er : Sql.int64 id = true).
    { unfold Sql.int64. apply andb_true_iff.
      split; [apply Z.leb_le | apply Z.ltb_lt]; lia. }
    destruct (get_item d id) as [found|] eqn:E.
    + exists found. destruct (get_item_in _ _ _ E) as (_ & Hf & Hfid).
      rewrite (get_or_404_found _ _ _ E).
      split; [exact Hfid|]. split; [exact Hf|].
      split; [reflexivity|]. split; [reflexivity|].
      intros Hk. unfold query_conversation. rewrite Hk. reflexivity.
    + unfold get_item in E. rewrite Er in E.
      apply (find_none _ _ E) in Hin. apply Z.eqb_neq in Hin. contradiction.
  - intros Hr. rewrite get_or_404_overflow; [auto|].
    unfold Sql.int64. apply andb_false_iff.
    destruct Hr; [left; apply Z.leb_gt | right; apply Z.ltb_ge]; lia.
Qed.

Lemma item_views_404_witness :
  item_details shop_42 7 = Abort 404
  /\ buy_item shop_42 (Some 1) 7 = (Abort 404, shop_42)
  /\ item_details shop_42 9223372036854775808 = Fault "OverflowError"
  /\ exists found,
       item_details shop_42 42
       = Render "item.html" [] (ItemView found (Some seller_1)).
Proof.
  destruct (item_views_404 shop_42 (Some 1) seller_1 7 eq_refl)
    as (H404 & _ & _).
  destruct (item_views_404 shop_42 (Some 1) seller_1 9223372036854775808
              eq_refl) as (_ & _ & Hover).
  destruct (item_views_404 shop_42 (Some 1) seller_1 42 eq_refl)
    as (_ & Hfound & _).
  destruct H404 as (H1 & H2 & _);
    [lia | intros it [<-|[]]; discriminate |].
  destruct Hover as (H3 & _); [right; lia|].
  destruct (Hfound ltac:(lia) item_42 (or_introl eq_refl) eq_refl)
    as (found & _ & Hin & H4 & _).
  split; [exact H1|]. split; [exact H2|]. split; [exact H3|].
  exists found. rewrite H4. destruct Hin as [<-|[]]. reflexivity.
Defined.

(** ** Forms: guards and missing fields *)

(** A registration or a login posted without one of its fields is
    answered 400 and changes neither the store nor the session, whatever
    the other fields hold. *)
Theorem incomplete_form_400 {platform : Platform}
  (amb : Ambient) (d : Store) (s : Session) (form : Form) :
  current_user d s = None ->
  ((exists k, In k ["username"; "email"; "phone"; "password"]
              /\ Py.assoc k form = None) ->
   register amb d s POST form = (Abort 400, d))
  /\ ((exists k, In k ["login_input"; "password"] /\ Py.assoc k form = None) ->
      login d s POST form = (Abort 400, s)).
Proof.
  intros Hanon. unfold register, login. rewrite Hanon. split.
  - intros [k [Hk Hnone]].
    destruct Hk as [<-|[<-|[<-|[<-|[]]]]]; rewrite Hnone;
      repeat match goal with
             | |- context [match Py.assoc ?f form with _ => _ end] =>
                 destruct (Py.assoc f form)
             end; reflexivity.
  - intros [k [Hk Hnone]].
    destruct Hk as [<-|[<-|[]]]; rewrite Hnone;
      repeat match goal with
             | |- context [match Py.assoc ?f form with _ => _ end] =>
                 destruct (Py.assoc f form)
             end; reflexivity.
Qed.

Lemma incomplete_form_400_witness :
  register (platform := toy_platform) quiet store_alice None POST
    [("username", "bob"); ("email", "bob@x.com"); ("password", "builder")]
  = (Abort 400, store_alice)
  /\ login (platform := toy_platform) store_alice None POST
       [("login_input", "alice")] = (Abort 400, None).
Proof.
  split.
  - apply (proj1 (incomplete_form_400 (platform := toy_platform) quiet
                    store_alice None _ eq_refl)).
    exists "phone". split; [right; right; left; reflexivity | reflexivity].
  - apply (proj2 (incomplete_form_400 (platform := toy_platform) quiet
                    store_alice None _ eq_refl)).
    exists "password". split; [right; left; reflexivity | reflexivity].
Defined.

(** A listing that does not go through stores no item: whatever the
    answer other than the success redirect (a missing field, a price
    that is no float, a NaN the store refuses, the login redirect, the
    form on GET), the three tables are as they were. *)
Theorem sell_item_failure_keeps_tables {platform : Platform}
  (d : Store) (s : Session) (m : method) (form : Form)
  (file : option FileStorage) :
  fst (sell_item d s m form file)
  <> Redirect "home" ["Item listed successfully!"] ->
  users (snd (sell_item d s m form file)) = users d
  /\ items (snd (sell_item d s m form file)) = items d
  /\ messages (snd (sell_item d s m form file)) = messages d.
Proof.
  unfold sell_item, login_required.
  destruct (current_user d s); [|auto].
  destruct m; [auto|].
  destruct (Py.assoc "title" form); [|auto].
  destruct (Py.assoc "description" form); [|auto].
  destruct (Py.assoc "price" form) as [pt|]; [|auto].
  destruct (Py.float pt) as [x|]; [|auto].
  destruct (Py.assoc "location" form); [|auto].
  destruct file as [f|]; [destruct (negb _ && _)|];
    (destruct (insert_item _ _) eqn:E;
     [cbn [fst]; congruence | cbn; auto]).
Qed.

Lemma sell_item_failure_keeps_tables_witness :
  items (snd (sell_item (platform := toy_platform) shop_42 (Some 1) POST
                (sell_form "nan") (Some lamp_photo))) = [item_42]
  /\ fst (sell_item (platform := toy_platform) shop_42 (Some 1) POST
            (sell_form "nan") (Some lamp_photo)) = Fault "IntegrityError".
Proof.
  split; [|reflexivity].
  apply (sell_item_failure_keeps_tables (platform := toy_platform) shop_42
           (Some 1) POST (sell_form "nan") (Some lamp_photo)).
  discriminate.
Defined.
